(** * mpc_down_v4: join, epoch normalisation and magnitude reduction

    A shallow embedding of the data pipeline of [mpc_down_v4.py]: the chunked
    ephemeris download loop, the textual join of observation and ephemeris
    lines, the perihelion-relative date correction and the magnitude
    reduction, together with the interactive resolution of the epoch
    parameters.

    Conventions.
    - A text file is the list of its lines; a line is a [string] of ASCII
      characters.  Lines written by the script end with a newline, as in the
      source.
    - Python exceptions are results: [Raise e].  A [while] loop is run with
      fuel and [OutOfFuel] says that the loop did not finish within it.
    - The period is a Python float, an IEEE 754 binary64 number: the date
      arithmetic of [correct_dates] is carried out on the primitive doubles
      of [PrimFloat], every sum, difference and quotient rounded as the
      machine rounds it, and the day difference is a Python [int] until a
      loop body has run.  The magnitude formula of [reduce_magnitudes] is
      generic in the float implementation through the class [FloatOps], and
      instantiated with the real numbers where a concrete value of [log10]
      is needed. *)

From Stdlib Require Import ZArith QArith Qround Qabs List String Ascii Bool Lia Lqa.
From Stdlib Require Import DecimalString.
From Stdlib Require Import Reals Qreals Lra.
From Stdlib Require Import Floats.
Import ListNotations.

Local Open Scope list_scope.
Local Open Scope string_scope.

(** ** Outcomes of Python code *)

Inductive exn : Type :=
| ValueError
| TypeError
| KeyError
| IndexError
| OverflowError
| EOFError.

Inductive outcome (A : Type) : Type :=
| Ok (a : A)
| Raise (e : exn)
| OutOfFuel.

Arguments Ok {A} a.
Arguments Raise {A} e.
Arguments OutOfFuel {A}.

Definition bind {A B : Type} (m : outcome A) (k : A -> outcome B) : outcome B :=
  match m with
  | Ok a => k a
  | Raise e => Raise e
  | OutOfFuel => OutOfFuel
  end.

Notation "x <- m ;; k" := (bind m (fun x => k))
  (at level 61, m at next level, right associativity).

Definition failed {A : Type} (m : outcome A) : Prop :=
  exists e, m = Raise e.

(** ** Python text primitives *)

Module Py.

(** The newline that ends a written line. *)
Definition nl : string := String (ascii_of_nat 10) EmptyString.

(** [str.isspace] on one ASCII character: tab, line feed, vertical tab, form
    feed, carriage return, the four separators 28..31 and the blank. *)
Definition isspace (c : ascii) : bool :=
  let n := nat_of_ascii c in
  ((9 <=? n) && (n <=? 13) || (28 <=? n) && (n <=? 32))%nat.

(** [s.split()] without argument: the maximal runs of non-blank characters. *)
Fixpoint split (s : string) : list string :=
  match s with
  | EmptyString => []
  | String c r =>
      if isspace c then split r
      else
        match r with
        | EmptyString => [String c EmptyString]
        | String d _ =>
            if isspace d then String c EmptyString :: split r
            else
              match split r with
              | t :: ts => String c t :: ts
              | [] => [String c EmptyString]
              end
        end
  end.

Fixpoint lstrip (s : string) : string :=
  match s with
  | EmptyString => EmptyString
  | String c r => if isspace c then lstrip r else s
  end.

Fixpoint rstrip (s : string) : string :=
  match s with
  | EmptyString => EmptyString
  | String c r =>
      match rstrip r with
      | EmptyString => if isspace c then EmptyString else String c EmptyString
      | r' => String c r'
      end
  end.

(** [s.strip()] *)
Definition strip (s : string) : string := rstrip (lstrip s).

(** [sep.join(parts)] *)
Definition join (sep : string) (parts : list string) : string :=
  String.concat sep parts.

(** [l[i:j]] for [0 <= i <= j] *)
Definition slice {A : Type} (i j : nat) (l : list A) : list A :=
  firstn (j - i) (skipn i l).

(** [l[i]] for [0 <= i] *)
Definition index {A : Type} (l : list A) (i : nat) : outcome A :=
  match nth_error l i with
  | Some a => Ok a
  | None => Raise IndexError
  end.

(** [x in l] for a list of strings *)
Definition member (x : string) (l : list string) : bool :=
  existsb (String.eqb x) l.

(** [str(n)] for an integer *)
Definition str_int (n : Z) : string := NilZero.string_of_int (Z.to_int n).

(** [s.split(sep)] for a one-character separator *)
Fixpoint split_on (sep : ascii) (s : string) : list string :=
  match s with
  | EmptyString => [EmptyString]
  | String c r =>
      if Ascii.eqb c sep then EmptyString :: split_on sep r
      else
        match split_on sep r with
        | t :: ts => String c t :: ts
        | [] => [String c EmptyString]
        end
  end.

(** [s.lower()] on ASCII text *)
Definition lower_char (c : ascii) : ascii :=
  let n := nat_of_ascii c in
  if ((65 <=? n) && (n <=? 90))%nat then ascii_of_nat (n + 32) else c.

Fixpoint lower (s : string) : string :=
  match s with
  | EmptyString => EmptyString
  | String c r => String (lower_char c) (lower r)
  end.

End Py.

(** ** Calendar dates

    [datetime] values at midnight are represented by their proleptic
    Gregorian ordinal, as [datetime.toordinal] gives it. *)

Module Calendar.

Local Open Scope Z_scope.

Definition is_leap (year : Z) : bool :=
  (year mod 4 =? 0) && (negb (year mod 100 =? 0) || (year mod 400 =? 0)).

Definition days_before_year (year : Z) : Z :=
  let y := year - 1 in
  y * 365 + y / 4 - y / 100 + y / 400.

Definition DAYS_IN_MONTH : list Z :=
  [-1; 31; 28; 31; 30; 31; 30; 31; 31; 30; 31; 30; 31].

Definition DAYS_BEFORE_MONTH : list Z :=
  [-1; 0; 31; 59; 90; 120; 151; 181; 212; 243; 273; 304; 334].

Definition days_in_month (year month : Z) : Z :=
  if (month =? 2) && is_leap year then 29
  else nth (Z.to_nat month) DAYS_IN_MONTH 0.

Definition days_before_month (year month : Z) : Z :=
  nth (Z.to_nat month) DAYS_BEFORE_MONTH 0
  + (if (2 <? month) && is_leap year then 1 else 0).

Definition ymd2ord (year month day : Z) : Z :=
  days_before_year year + days_before_month year month + day.

(** Ordinals of 0001-01-01 and 9999-12-31. *)
Definition MINORD : Z := 1.
Definition MAXORD : Z := 3652059.

Definition is_digit (c : ascii) : bool :=
  let n := nat_of_ascii c in ((48 <=? n) && (n <=? 57))%nat.

Definition digit (c : ascii) : Z := Z.of_nat (nat_of_ascii c) - 48.

Definition in_range (lo hi : Z) (c : ascii) : bool :=
  is_digit c && (lo <=? digit c) && (digit c <=? hi).

(** The group of [%m]: [1[0-2]|0[1-9]|[1-9]], followed by the literal dash.
    Returns the month and the rest of the text. *)
Definition parse_month (s : string) : option (Z * string) :=
  let one_digit :=
    match s with
    | String a (String dash r) =>
        if in_range 1 9 a && Ascii.eqb dash "-" then Some (digit a, r) else None
    | _ => None
    end in
  match s with
  | String a (String b (String dash r)) =>
      if ((Ascii.eqb a "1" && in_range 0 2 b) || (Ascii.eqb a "0" && in_range 1 9 b))
         && Ascii.eqb dash "-"
      then Some (10 * digit a + digit b, r)
      else one_digit
  | _ => one_digit
  end.

(** The group of [%d]: [3[0-1]|[1-2]\d|0[1-9]|[1-9]| [1-9]], which must reach
    the end of the text (else: unconverted data remains). *)
Definition parse_day (s : string) : option Z :=
  match s with
  | String a (String b EmptyString) =>
      if (Ascii.eqb a "3" && in_range 0 1 b)
         || (in_range 1 2 a && is_digit b)
         || (Ascii.eqb a "0" && in_range 1 9 b)
      then Some (10 * digit a + digit b)
      else if Ascii.eqb a " " && in_range 1 9 b then Some (digit b)
      else None
  | String a EmptyString =>
      if in_range 1 9 a then Some (digit a) else None
  | _ => None
  end.

(** [datetime.strptime(s, '%Y-%m-%d')]: four digits of year, month, day, and
    the range checks of the [datetime] constructor.  [None] is [ValueError]. *)
Definition strptime (s : string) : option Z :=
  match s with
  | String a (String b (String c (String d (String dash r)))) =>
      if is_digit a && is_digit b && is_digit c && is_digit d
         && Ascii.eqb dash "-" then
        let year := 1000 * digit a + 100 * digit b + 10 * digit c + digit d in
        match parse_month r with
        | Some (month, r') =>
            match parse_day r' with
            | Some day =>
                if (1 <=? year) && (day <=? days_in_month year month)
                then Some (ymd2ord year month day)
                else None
            | None => None
            end
        | None => None
        end
      else None
  | _ => None
  end.

End Calendar.

(** ** The join of observations and ephemeris: [combine_data] *)

(** State of the two nested loops: the lines written to [combined_data.txt]
    so far and the counter [n_obs]. *)
Definition combine_state : Type := (list string * nat)%type.

(** The date key of a split line: [' '.join(parts[0:3])]. *)
Definition date_key (parts : list string) : string :=
  Py.join " " (Py.slice 0 3 parts).

(** Body of the inner loop, for one ephemeris line. *)
Definition combine_eph_line (obs_parts : list string) (obs_date : string)
    (st : combine_state) (eph_line : string) : combine_state :=
  let eph_parts := Py.split (Py.strip eph_line) in
  let eph_date := date_key eph_parts in
  if String.eqb eph_date obs_date then
    let new_line := Py.join " " (obs_parts ++ Py.slice 3 6 eph_parts)%list ++ Py.nl in
    ((fst st ++ [new_line])%list, S (snd st))
  else st.

(** Body of the outer loop, for one observation line. *)
Definition combine_obs_line (eph_file : list string)
    (st : combine_state) (obs_line : string) : combine_state :=
  let obs_parts := Py.split (Py.strip obs_line) in
  if (5 <=? List.length obs_parts)%nat then
    let obs_date := date_key obs_parts in
    fold_left (combine_eph_line obs_parts obs_date) eph_file st
  else st.

(** [combine_data()]: the contents of [combined_data.txt] and the returned
    [n_obs], from the contents of the two downloaded files. *)
Definition combine_data (eph_file obs_file : list string) : combine_state :=
  fold_left (combine_obs_line eph_file) obs_file ([], 0%nat).

(** ** Epoch normalisation: [correct_dates] *)

(** The values a Python variable of the epoch parameters can hold. *)
Inductive pyval : Type :=
| PNone
| PDatetime (ordinal : Z)
| PFloat (x : PrimFloat.float).

(** The number held by [delta_days]: the [int] of [timedelta.days], and a
    [float] once the body of one of the loops has run. *)
Inductive pynum : Type :=
| PyInt (n : Z)
| PyFloat (x : PrimFloat.float).

(** [x < y] on rationals. *)
Definition Qltb (x y : Q) : bool := negb (Qle_bool y x).

(** The exact value of the finite double of sign [s], mantissa [m] and
    exponent [e]: plus or minus [m * 2^e]. *)
Definition SF2Q (s : bool) (m : positive) (e : Z) : Q :=
  let n := if s then Zneg m else Zpos m in
  match e with
  | Zneg p => n # (2 ^ p)
  | _ => inject_Z (n * 2 ^ e)
  end.

(** The exact value of a double, when it is finite. *)
Definition float_value (x : PrimFloat.float) : option Q :=
  match Prim2SF x with
  | S754_zero _ => Some 0
  | S754_finite s m e => Some (SF2Q s m e)
  | S754_infinity _ | S754_nan => None
  end.

(** [float(n)] for an [int]: the nearest double, a tie going to the even
    mantissa, and [OverflowError] beyond the range of the doubles. *)
Definition float_of_int (n : Z) : outcome PrimFloat.float :=
  match binary_normalize prec emax n 0 false with
  | S754_infinity _ => Raise OverflowError
  | x => Ok (SF2Prim x)
  end.

(** [n < x] for an [int] and a [float]: Python compares the exact values,
    and nothing is below a NaN. *)
Definition int_ltb_float (n : Z) (x : PrimFloat.float) : bool :=
  match Prim2SF x with
  | S754_nan => false
  | S754_infinity s => negb s
  | S754_zero _ => (n <? 0)%Z
  | S754_finite s m e => Qltb (inject_Z n) (SF2Q s m e)
  end.

(** [x < n], that is [n > x], likewise. *)
Definition float_ltb_int (x : PrimFloat.float) (n : Z) : bool :=
  match Prim2SF x with
  | S754_nan => false
  | S754_infinity s => s
  | S754_zero _ => (0 <? n)%Z
  | S754_finite s m e => Qltb (SF2Q s m e) (inject_Z n)
  end.

(** [delta_days < x] *)
Definition num_ltb (delta_days : pynum) (x : PrimFloat.float) : bool :=
  match delta_days with
  | PyInt n => int_ltb_float n x
  | PyFloat y => PrimFloat.ltb y x
  end.

(** [delta_days > x] *)
Definition num_gtb (delta_days : pynum) (x : PrimFloat.float) : bool :=
  match delta_days with
  | PyInt n => float_ltb_int x n
  | PyFloat y => PrimFloat.ltb x y
  end.

(** [delta_days + period]: an [int] is converted first, and the sum is
    rounded to a double. *)
Definition num_add (delta_days : pynum) (period : PrimFloat.float)
    : outcome PrimFloat.float :=
  match delta_days with
  | PyInt n => x <- float_of_int n ;; Ok (PrimFloat.add x period)
  | PyFloat y => Ok (PrimFloat.add y period)
  end.

(** [delta_days - period] *)
Definition num_sub (delta_days : pynum) (period : PrimFloat.float)
    : outcome PrimFloat.float :=
  match delta_days with
  | PyInt n => x <- float_of_int n ;; Ok (PrimFloat.sub x period)
  | PyFloat y => Ok (PrimFloat.sub y period)
  end.

(** [(current_date - perihelion_date).days] *)
Definition days_between (current_date : Z) (perihelion_date : pyval) : outcome Z :=
  match perihelion_date with
  | PDatetime p => Ok (current_date - p)%Z
  | _ => Raise TypeError
  end.

(** The operand [period] of [- period / 2], [+= period] and [-= period]. *)
Definition as_float (period : pyval) : outcome PrimFloat.float :=
  match period with
  | PFloat x => Ok x
  | _ => Raise TypeError
  end.

(** [while delta_days < - period / 2: delta_days += period] *)
Fixpoint while_below (fuel : nat) (delta_days : pynum) (period : PrimFloat.float)
    : outcome pynum :=
  match fuel with
  | O => OutOfFuel
  | S fuel' =>
      if num_ltb delta_days (- period / 2)%float
      then
        d <- num_add delta_days period ;;
        while_below fuel' (PyFloat d) period
      else Ok delta_days
  end.

(** [while delta_days > period / 2: delta_days -= period] *)
Fixpoint while_above (fuel : nat) (delta_days : pynum) (period : PrimFloat.float)
    : outcome pynum :=
  match fuel with
  | O => OutOfFuel
  | S fuel' =>
      if num_gtb delta_days (period / 2)%float
      then
        d <- num_sub delta_days period ;;
        while_above fuel' (PyFloat d) period
      else Ok delta_days
  end.

(** The two loops in sequence: the offset before rounding. *)
Definition adjust_delta_days (fuel : nat) (delta_days : Z) (period : PrimFloat.float)
    : outcome pynum :=
  d <- while_below fuel (PyInt delta_days) period ;;
  while_above fuel d period.

(** The nearest integer of a rational, a tie going to the even one. *)
Definition round_half_even (x : Q) : Z :=
  let f := Qfloor x in
  match Qcompare (x - inject_Z f) (1 # 2) with
  | Lt => f
  | Gt => (f + 1)%Z
  | Eq => if Z.even f then f else (f + 1)%Z
  end.

(** [round(delta_days)]: an [int] is returned as it is; a [float] goes to
    the nearest integer of its exact value, a tie to the even one; an
    infinity raises [OverflowError] and a NaN [ValueError]. *)
Definition round (delta_days : pynum) : outcome Z :=
  match delta_days with
  | PyInt n => Ok n
  | PyFloat x =>
      match Prim2SF x with
      | S754_nan => Raise ValueError
      | S754_infinity _ => Raise OverflowError
      | S754_zero _ => Ok 0%Z
      | S754_finite s m e => Ok (round_half_even (SF2Q s m e))
      end
  end.

(** [datetime.strptime(f"{year}-{month}-{day}", '%Y-%m-%d')] on the first
    three fields of a line. *)
Definition row_date (parts : list string) : option Z :=
  match Py.slice 0 3 parts with
  | [year; month; day] => Calendar.strptime (year ++ "-" ++ month ++ "-" ++ day)
  | _ => None
  end.

(** The line written for a row, from its rounded offset. *)
Definition modified_line (delta_days_rounded : Z) (parts : list string) : string :=
  Py.str_int delta_days_rounded ++ " " ++ Py.join " " (skipn 3 parts)
  ++ " " ++ Py.join " " (firstn 3 parts) ++ Py.nl.

(** Body of the loop of [correct_dates]: [Ok None] is [continue]. *)
Definition correct_line (fuel : nat) (perihelion_date period : pyval)
    (line : string) : outcome (option string) :=
  let parts := Py.split line in
  if (List.length parts <? 3)%nat then Ok None
  else
    match row_date parts with
    | None => Raise ValueError
    | Some current_date =>
        delta_days <- days_between current_date perihelion_date ;;
        p <- as_float period ;;
        d <- adjust_delta_days fuel delta_days p ;;
        delta_days_rounded <- round d ;;
        Ok (Some (modified_line delta_days_rounded parts))
    end.

Fixpoint correct_dates_loop (fuel : nat) (perihelion_date period : pyval)
    (infile outfile : list string) : outcome (list string) :=
  match infile with
  | [] => Ok outfile
  | line :: rest =>
      r <- correct_line fuel perihelion_date period line ;;
      correct_dates_loop fuel perihelion_date period rest
        (match r with
         | Some modified => (outfile ++ [modified])%list
         | None => outfile
         end)
  end.

(** [correct_dates(perihelion_date, period)]: the contents of
    [modified_dates.txt] from those of [combined_data.txt]. *)
Definition correct_dates (fuel : nat) (perihelion_date period : pyval)
    (combined : list string) : outcome (list string) :=
  correct_dates_loop fuel perihelion_date period combined [].



(** ** Magnitude reduction: [reduce_magnitudes] *)

(** Filters correction to V.  Each value is a one-element list, as in the
    source. *)
Definition v_band_correction : list (string * list Q) :=
  [ ("blank", [0]);
    ("U", [-13 # 10]);
    ("B", [-8 # 10]);
    ("g", [-35 # 100]);
    ("V", [0]);
    ("r", [14 # 100]);
    ("R", [4 # 10]);
    ("C", [4 # 10]);
    ("W", [4 # 10]);
    ("i", [32 # 100]);
    ("z", [26 # 100]);
    ("I", [8 # 10]);
    ("J", [12 # 10]);
    ("w", [-13 # 100]);
    ("y", [32 # 100]);
    ("L", [2 # 10]);
    ("H", [14 # 10]);
    ("K", [17 # 10]);
    ("Y", [7 # 10]);
    ("G", [28 # 100]);
    ("v", [0]);
    ("c", [-5 # 100]);
    ("o", [33 # 100]);
    ("u", [25 # 10]);
    ("N", [0]);
    ("T", [0]) ].

(** Discarded filters *)
Definition discarded_filters : list string :=
  ["U"; "u"; "B"; "I"; "J"; "H"; "K"].

(** [d[key]] on a dictionary given as its list of items. *)
Fixpoint getitem {V : Type} (d : list (string * V)) (key : string) : outcome V :=
  match d with
  | [] => Raise KeyError
  | (k, v) :: rest => if String.eqb k key then Ok v else getitem rest key
  end.

(** The float operations the reduction uses.  [fl_parse] is [float(s)] and
    [fl_log10] is [math.log10], both with [None] for [ValueError];
    [fl_literal] is the float (or int) a numeric literal denotes and
    [fl_round2 x] is [round(x, 2)]. *)
Class FloatOps (F : Type) : Type := {
  fl_parse : string -> option F;
  fl_literal : Q -> F;
  fl_add : F -> F -> F;
  fl_sub : F -> F -> F;
  fl_mul : F -> F -> F;
  fl_log10 : F -> option F;
  fl_round2 : F -> F
}.

(** A line of [reduced_data.txt]: the eight fields copied from the input
    line, [year month day t-tq delta r phase m_observed], and the value
    whose [str] ends the line. *)
Record reduced_row (F : Type) : Type := {
  rr_fields : list string;
  rr_m_abs : F
}.

Arguments rr_fields {F} _.
Arguments rr_m_abs {F} _.

(** State of the loop of [reduce_magnitudes]. *)
Record reduce_state (F : Type) : Type := {
  outfile : list (reduced_row F);
  n_obs_left : nat;
  n_discarded_obs : nat
}.

Arguments outfile {F} _.
Arguments n_obs_left {F} _.
Arguments n_discarded_obs {F} _.

Section Reduce.

Context {F : Type} {ops : FloatOps F}.

Definition of_option {A : Type} (e : exn) (o : option A) : outcome A :=
  match o with
  | Some a => Ok a
  | None => Raise e
  end.

(** [float(parts[i])] *)
Definition float_field (parts : list string) (i : nat) : outcome F :=
  s <- Py.index parts i ;; of_option ValueError (fl_parse s).

(** [m_observed - 5*math.log10(delta_value*r_value) + v_band_correction[filter_value][0]],
    rounded to two decimals. *)
Definition absolute_magnitude (m_observed delta_value r_value : F)
    (filter_value : string) : outcome F :=
  lg <- of_option ValueError (fl_log10 (fl_mul delta_value r_value)) ;;
  entry <- getitem v_band_correction filter_value ;;
  correction <- Py.index entry 0 ;;
  Ok (fl_round2 (fl_add (fl_sub m_observed (fl_mul (fl_literal 5) lg))
                        (fl_literal correction))).

(** Body of the loop of [reduce_magnitudes]. *)
Definition reduce_line (st : reduce_state F) (line : string) : outcome (reduce_state F) :=
  let parts := Py.split line in
  m_observed <- float_field parts 1 ;;
  filter_value <- Py.index parts 2 ;;
  delta_value <- float_field parts 3 ;;
  r_value <- float_field parts 4 ;;
  if negb (Py.member filter_value discarded_filters) then
    m_abs <- absolute_magnitude m_observed delta_value r_value filter_value ;;
    p6 <- Py.index parts 6 ;;
    p7 <- Py.index parts 7 ;;
    p8 <- Py.index parts 8 ;;
    p0 <- Py.index parts 0 ;;
    p3 <- Py.index parts 3 ;;
    p4 <- Py.index parts 4 ;;
    p5 <- Py.index parts 5 ;;
    p1 <- Py.index parts 1 ;;
    Ok {| outfile := (outfile st
                      ++ [ {| rr_fields := [p6; p7; p8; p0; p3; p4; p5; p1];
                              rr_m_abs := m_abs |} ])%list;
          n_obs_left := S (n_obs_left st);
          n_discarded_obs := n_discarded_obs st |}
  else
    Ok {| outfile := outfile st;
          n_obs_left := n_obs_left st;
          n_discarded_obs := S (n_discarded_obs st) |}.

Fixpoint reduce_loop (infile : list string) (st : reduce_state F) : outcome (reduce_state F) :=
  match infile with
  | [] => Ok st
  | line :: rest => st' <- reduce_line st line ;; reduce_loop rest st'
  end.

(** [reduce_magnitudes()]: the rows of [reduced_data.txt] and the two
    counters, from the contents of [modified_dates.txt]. *)
Definition reduce_magnitudes (modified : list string) : outcome (reduce_state F) :=
  reduce_loop modified {| outfile := []; n_obs_left := 0; n_discarded_obs := 0 |}.

End Reduce.

(** ** The chunked ephemeris download: [download_ephem_for_period] *)

(** One call of [download_ephemeris]: the start date (its ordinal; the source
    passes its [%Y-%m-%d] text), the number of days and the append mode. *)
Record request : Type := {
  req_start : Z;
  req_days : Z;
  req_append : bool
}.

(** [d + timedelta(days=n)] *)
Definition add_days (d n : Z) : outcome Z :=
  let r := (d + n)%Z in
  if ((Calendar.MINORD <=? r) && (r <=? Calendar.MAXORD))%Z then Ok r
  else Raise OverflowError.

Section Download.

(** The upstream request: [download_ephemeris] returns 1 on success and 0
    otherwise. *)
Variable download_ephemeris : request -> Z.

Local Open Scope Z_scope.

(** The [while difference > 0] loop.  The result pairs the requests issued
    so far with the value returned or the exception raised. *)
Fixpoint ephem_loop (fuel : nat) (start_date difference n_iterations : Z)
    (append_mode : bool) (success_down_ephem : Z) (issued : list request)
    : list request * outcome Z :=
  match fuel with
  | O => (issued, if 0 <? difference then OutOfFuel else Ok success_down_ephem)
  | S fuel' =>
      if 0 <? difference then
        let append_mode := if n_iterations =? 1 then true else append_mode in
        let days_to_download := Z.min difference 4001 in
        match add_days start_date (days_to_download - 1) with
        | Ok date_to_print =>
            let req := {| req_start := start_date;
                          req_days := days_to_download;
                          req_append := append_mode |} in
            let success_down_ephem := download_ephemeris req in
            let issued := (issued ++ [req])%list in
            if success_down_ephem =? 0 then (issued, Ok success_down_ephem)
            else
              match add_days start_date days_to_download with
              | Ok start_date' =>
                  ephem_loop fuel' start_date' (difference - days_to_download)
                    (n_iterations + 1) append_mode success_down_ephem issued
              | Raise e => (issued, Raise e)
              | OutOfFuel => (issued, OutOfFuel)
              end
        | Raise e => (issued, Raise e)
        | OutOfFuel => (issued, OutOfFuel)
        end
      else (issued, Ok success_down_ephem)
  end.

(** [download_ephem_for_period(start_date, end_date, object_name)].  The
    loop consumes at least one day per iteration, so [difference] iterations
    are always enough. *)
Definition download_ephem_for_period (start_date end_date : string)
    : list request * outcome Z :=
  match Calendar.strptime start_date with
  | None => ([], Raise ValueError)
  | Some start_ord =>
      match Calendar.strptime end_date with
      | None => ([], Raise ValueError)
      | Some end_ord =>
          let difference := end_ord - start_ord + 1 in
          ephem_loop (Z.to_nat difference) start_ord difference 0 false 0 []
      end
  end.

End Download.

(** ** Resolution of the epoch parameters *)

(** Interactive code: a computation reads lines from the standard input. *)
Definition IO (A : Type) : Type := list string -> outcome (A * list string).

Definition ret {A : Type} (a : A) : IO A := fun stdin => Ok (a, stdin).

Definition io_bind {A B : Type} (m : IO A) (k : A -> IO B) : IO B :=
  fun stdin =>
    match m stdin with
    | Ok (a, stdin') => k a stdin'
    | Raise e => Raise e
    | OutOfFuel => OutOfFuel
    end.

Definition io_raise {A : Type} (e : exn) : IO A := fun _ => Raise e.

(** [input(prompt)] *)
Definition input : IO string :=
  fun stdin =>
    match stdin with
    | [] => Raise EOFError
    | line :: rest => Ok (line, rest)
    end.

Notation "x <~ m ;; k" := (io_bind m (fun x => k))
  (at level 61, m at next level, right associativity).

Section Epoch.

(** [float(s)] for the period, with [None] for [ValueError]. *)
Variable float : string -> option PrimFloat.float.

(** [new_perihelion_or_period(valid_perihelion_date, valid_period)]: a
    [ValueError] of the parse is caught, reported, and [None] is returned. *)
Definition new_perihelion_or_period (valid_perihelion_date valid_period : bool)
    : IO pyval :=
  if negb valid_perihelion_date then
    new_date_str <~ input ;;
    match Calendar.strptime new_date_str with
    | Some perihelion_date => ret (PDatetime perihelion_date)
    | None => ret PNone
    end
  else if negb valid_period then
    new_period_str <~ input ;;
    match float new_period_str with
    | Some period => ret (PFloat period)
    | None => ret PNone
    end
  else ret PNone.

(** [date_str, _ = perihelion_date_str.split('.')] followed by [strptime]. *)
Definition found_perihelion_date (perihelion_date_str : string) : IO pyval :=
  match Py.split_on "." perihelion_date_str with
  | [date_str; _] =>
      match Calendar.strptime date_str with
      | Some d => ret (PDatetime d)
      | None => io_raise ValueError
      end
  | _ => io_raise ValueError
  end.

(** [float(period_str) * 365.25] *)
Definition found_period (period_str : string) : IO pyval :=
  match float period_str with
  | Some years => ret (PFloat (PrimFloat.mul years 365.25%float))
  | None => io_raise ValueError
  end.

(** [bool(s.strip())] *)
Definition found (s : string) : bool :=
  negb (String.eqb (Py.strip s) EmptyString).

(** The last part of [download_observations]: from the two texts scraped
    from the page to the returned [perihelion_date] and [period]. *)
Definition resolve_epoch (perihelion_date_str period_str : string)
    : IO (pyval * pyval) :=
  let perihelion_date_found := found perihelion_date_str in
  let period_found := found period_str in
  first <~
    (if negb perihelion_date_found && negb period_found then
       perihelion_date <~ new_perihelion_or_period false true ;;
       period <~ new_perihelion_or_period true false ;;
       ret (perihelion_date, period)
     else if negb (found perihelion_date_str) then
       perihelion_date <~ new_perihelion_or_period false true ;;
       period <~ found_period period_str ;;
       ret (perihelion_date, period)
     else if negb (found period_str) then
       period <~ new_perihelion_or_period true false ;;
       perihelion_date <~ found_perihelion_date perihelion_date_str ;;
       ret (perihelion_date, period)
     else
       perihelion_date <~ found_perihelion_date perihelion_date_str ;;
       period <~ found_period period_str ;;
       ret (perihelion_date, period)) ;;
  user_input <~ input ;;
  if negb (String.eqb (Py.lower user_input) "yes") then
    perihelion_date <~ new_perihelion_or_period false true ;;
    period <~ new_perihelion_or_period true false ;;
    ret (perihelion_date, period)
  else ret first.

(** The main program once both downloads have succeeded: resolve the epoch
    parameters, join, and, when the join is not empty, normalise and reduce.
    The result holds the joined lines and, when the reduction ran, its
    state. *)
Definition main_pipeline {F : Type} {ops : FloatOps F} (fuel : nat)
    (eph_file obs_file : list string)
    (perihelion_date_str period_str : string) (stdin : list string)
    : outcome (list string * option (reduce_state F)) :=
  match resolve_epoch perihelion_date_str period_str stdin with
  | Ok ((perihelion_date, period), _) =>
      let (combined, n_obs) := combine_data eph_file obs_file in
      if negb (n_obs =? 0)%nat then
        modified <- correct_dates fuel perihelion_date period combined ;;
        st <- reduce_magnitudes modified ;;
        Ok (combined, Some st)
      else Ok (combined, None)
  | Raise e => Raise e
  | OutOfFuel => OutOfFuel
  end.

End Epoch.

(** Plain decimal literals: an optional sign, digits, and optionally a point
    and digits.  [decimal_value] is the exact value of the literal, and
    [decimal_float], which is [float(s)] on these texts, the double nearest
    to it. *)
Fixpoint digits_value (acc : Z) (s : string) : option Z :=
  match s with
  | EmptyString => Some acc
  | String c r =>
      if Calendar.is_digit c then digits_value (10 * acc + Calendar.digit c)%Z r
      else None
  end.

Definition unsigned_decimal (s : string) : option Q :=
  match Py.split_on "." s with
  | [ip] =>
      if String.eqb ip EmptyString then None
      else option_map inject_Z (digits_value 0 ip)
  | [ip; fp] =>
      if String.eqb ip EmptyString || String.eqb fp EmptyString then None
      else
        match digits_value 0 ip, digits_value 0 fp with
        | Some i, Some f =>
            let scale := Pos.pow 10 (Pos.of_nat (String.length fp)) in
            Some ((i * Zpos scale + f) # scale)
        | _, _ => None
        end
  | _ => None
  end.

Definition decimal_value (s : string) : option Q :=
  match s with
  | String sign r =>
      if Ascii.eqb sign "-" then option_map Qopp (unsigned_decimal r)
      else if Ascii.eqb sign "+" then unsigned_decimal r
      else unsigned_decimal s
  | EmptyString => None
  end.

(** The double nearest to [n / d], a tie going to the even mantissa; the
    quotient of the two integers is rounded once. *)
Definition nearest_double (n d : positive) : PrimFloat.float :=
  SF2Prim (SFdiv prec emax (S754_finite false n 0) (S754_finite false d 0)).

Definition unsigned_float (s : string) : option PrimFloat.float :=
  match unsigned_decimal s with
  | Some q =>
      match Qnum q with
      | Zpos n => Some (nearest_double n (Qden q))
      | _ => Some PrimFloat.zero
      end
  | None => None
  end.

Definition decimal_float (s : string) : option PrimFloat.float :=
  match s with
  | String sign r =>
      if Ascii.eqb sign "-" then option_map PrimFloat.opp (unsigned_float r)
      else if Ascii.eqb sign "+" then unsigned_float r
      else unsigned_float s
  | EmptyString => None
  end.

(** ** Vocabulary for the statements about the join *)

(** The fields of a line as the join reads them. *)
Definition fields (line : string) : list string := Py.split (Py.strip line).

(** The date text of a line: its first three fields joined by blanks. *)
Definition line_date (line : string) : string := date_key (fields line).

(** The joined line written for an observation and a matching ephemeris line. *)
Definition joined_line (obs_line eph_line : string) : string :=
  Py.join " " (fields obs_line ++ Py.slice 3 6 (fields eph_line))%list ++ Py.nl.

(** The ephemeris lines whose date text is that of the observation. *)
Definition matching (eph_file : list string) (obs_line : string) : list string :=
  filter (fun eph_line => String.eqb (line_date eph_line) (line_date obs_line)) eph_file.

(** The lines the join writes for one observation line. *)
Definition rows_of_obs (eph_file : list string) (obs_line : string) : list string :=
  if (5 <=? List.length (fields obs_line))%nat
  then map (joined_line obs_line) (matching eph_file obs_line)
  else [].

(** The date of a line read as numbers, as the specification speaks of it:
    [(int(year), int(month), int(day))] of the first three fields. *)
Definition numeric_date (line : string) : option (Z * Z * Z) :=
  match Py.slice 0 3 (fields line) with
  | [year; month; day] =>
      match digits_value 0 year, digits_value 0 month, digits_value 0 day with
      | Some y, Some m, Some d =>
          if String.eqb year EmptyString || String.eqb month EmptyString
             || String.eqb day EmptyString
          then None else Some (y, m, d)
      | _, _, _ => None
      end
  | _ => None
  end.

(** A field: a non-empty text without blank characters. *)
Fixpoint space_free (s : string) : bool :=
  match s with
  | EmptyString => true
  | String c r => negb (Py.isspace c) && space_free r
  end.

Definition is_token (s : string) : bool :=
  negb (String.eqb s EmptyString) && space_free s.

(** ** Vocabulary for the statements about the reduction *)

(** The filter of a line: its field 2. *)
Definition line_filter (line : string) : option string :=
  nth_error (Py.split line) 2.

(** The line is one the reduction discards. *)
Definition is_discarded (line : string) : bool :=
  match line_filter line with
  | Some filter_value => Py.member filter_value discarded_filters
  | None => false
  end.

(** The filter is a key of the correction table. *)
Definition in_table (filter_value : string) : bool :=
  existsb (fun item => String.eqb (fst item) filter_value) v_band_correction.

(** The row [row] is the one written for the kept line [line]: its value is
    the observed magnitude minus five times the decimal logarithm of the
    product of the distances, plus the correction of the filter, rounded to
    two decimals. *)
Definition reduced_from {F : Type} {ops : FloatOps F}
    (line : string) (row : reduced_row F) : Prop :=
  let parts := Py.split line in
  exists m_observed delta_value r_value lg filter_value correction,
    float_field parts 1 = Ok m_observed
    /\ Py.index parts 2 = Ok filter_value
    /\ float_field parts 3 = Ok delta_value
    /\ float_field parts 4 = Ok r_value
    /\ Py.member filter_value discarded_filters = false
    /\ fl_log10 (fl_mul delta_value r_value) = Some lg
    /\ getitem v_band_correction filter_value = Ok [correction]
    /\ rr_m_abs row
       = fl_round2 (fl_add (fl_sub m_observed (fl_mul (fl_literal 5) lg))
                           (fl_literal correction))
    /\ map Some (rr_fields row)
       = map (nth_error parts) [6; 7; 8; 0; 3; 4; 5; 1]%nat.

(** ** Floats as real numbers

    The instance used where the value of the decimal logarithm matters: the
    operations are the exact ones of the real numbers, texts are read as
    decimal literals, and rounding is to the nearest, a tie going to the
    even neighbour. *)

Module RealFloat.

Local Open Scope R_scope.

Definition Rfloor (x : R) : Z := (up x - 1)%Z.

(** [round(x)] *)
Definition Rround (x : R) : Z :=
  let f := Rfloor x in
  let r := x - IZR f in
  if Rlt_dec r (1 / 2) then f
  else if Rlt_dec (1 / 2) r then (f + 1)%Z
  else if Z.even f then f else (f + 1)%Z.

(** [round(x, 2)] *)
Definition round2 (x : R) : R := IZR (Rround (x * 100)) / 100.

(** [math.log10(x)], which raises [ValueError] unless [0 < x]. *)
Definition log10 (x : R) : option R :=
  if Rlt_dec 0 x then Some (ln x / ln 10) else None.

#[export] Instance real_ops : FloatOps R := {|
  fl_parse := fun s => option_map Q2R (decimal_value s);
  fl_literal := Q2R;
  fl_add := Rplus;
  fl_sub := Rminus;
  fl_mul := Rmult;
  fl_log10 := log10;
  fl_round2 := round2
|}.

End RealFloat.

(** ** Floats as terms

    The free instance: every operation builds the term that names it.  It
    computes, and a fact proved for every instance can be run on it. *)

Inductive float_term : Type :=
| TParse (s : string)
| TLiteral (q : Q)
| TAdd (x y : float_term)
| TSub (x y : float_term)
| TMul (x y : float_term)
| TLog10 (x : float_term)
| TRound2 (x : float_term).

Definition is_number (s : string) : bool :=
  match decimal_value s with
  | Some _ => true
  | None => false
  end.

#[export] Instance term_ops : FloatOps float_term := {|
  fl_parse := fun s => if is_number s then Some (TParse s) else None;
  fl_literal := TLiteral;
  fl_add := TAdd;
  fl_sub := TSub;
  fl_mul := TMul;
  fl_log10 := fun x => Some (TLog10 x);
  fl_round2 := TRound2
|}.

(** ** The worked example: one ephemeris line and one observation line *)

Definition example_eph_file : list string := ["2023 1 1 1.5 1.2 10.0" ++ Py.nl].
Definition example_obs_file : list string := ["2023 1 1 18.5 V" ++ Py.nl].
Definition example_joined : string := "2023 1 1 18.5 V 1.5 1.2 10.0" ++ Py.nl.
Definition example_normalized : string := "0 18.5 V 1.5 1.2 10.0 2023 1 1" ++ Py.nl.

(** ** Vocabulary for the statements about the download *)

(** The requests [reqs] cut the [remaining] days from [start] on into
    consecutive chunks: each starts where the previous one ended, takes the
    smaller of what remains and 4001 days, and the last one ends the span. *)
Fixpoint chunked (start remaining : Z) (reqs : list request) : Prop :=
  match reqs with
  | [] => remaining = 0%Z
  | req :: rest =>
      (0 < remaining)%Z
      /\ req_start req = start
      /\ req_days req = Z.min remaining 4001
      /\ chunked (start + req_days req) (remaining - req_days req) rest
  end.

(** The number of days the requests ask for. *)
Definition total_days (reqs : list request) : Z :=
  fold_right Z.add 0%Z (map req_days reqs).


(** Evaluation of a closed subterm of the goal. *)
Ltac run t :=
  let v := eval vm_compute in t in
  let E := fresh "E" in
  assert (E : t = v) by (vm_compute; reflexivity);
  rewrite E; clear E.

(** Evaluation of the closed test, sum, difference or rounding of the goal. *)
Ltac run_step :=
  match goal with
  | |- context [num_ltb ?d ?x] => run (num_ltb d x)
  | |- context [num_gtb ?d ?x] => run (num_gtb d x)
  | |- context [num_add ?d ?x] => run (num_add d x)
  | |- context [num_sub ?d ?x] => run (num_sub d x)
  | |- context [round ?d] => run (round d)
  end.

(** ** The interactive prompt: [user_input] *)

(** One [while not valid] loop: ask until the text typed is a date.  Each
    turn reads a line, so the loop ends with the input at the latest. *)
Fixpoint read_date (stdin : list string) : outcome (string * list string) :=
  match stdin with
  | [] => Raise EOFError
  | typed :: rest =>
      match Calendar.strptime typed with
      | Some _ => Ok (typed, rest)
      | None => read_date rest
      end
  end.

(** [user_input()]: the object name and the two dates, as typed. *)
Definition user_input : IO (string * string * string) :=
  object_name <~ input ;;
  start_date <~ read_date ;;
  end_date <~ read_date ;;
  ret (object_name, start_date, end_date).

(** ** The body of [download_ephemeris] *)

(** Body of the loop over the lines of the data block: a line of more than
    13 fields gives [year month day delta r phase]. *)
Definition extract_step (extracted_data : list string) (line : string) : list string :=
  let parts := Py.split line in
  if (13 <? List.length parts)%nat then
    match parts with
    | year :: month :: day :: _ :: _ :: _ :: _ :: _ :: delta :: r :: _ :: phase :: _ =>
        let extracted :=
          year ++ " " ++ month ++ " " ++ day ++ " " ++ delta ++ " " ++ r
          ++ " " ++ phase in
        (extracted_data ++ [extracted])%list
    | _ => extracted_data
    end
  else extracted_data.

Definition extract_ephemeris (data_text : list string) : list string :=
  fold_left extract_step data_text [].

(** [file.write(line + '\n')] *)
Definition with_newline (line : string) : string := line ++ Py.nl.

(** [download_ephemeris(start_date, num_days, object_name, append_mode)] on
    the answer of the server: [None] when the status is not 200 or the page
    has no data block, else the lines of the block.  Returns the flag and
    the contents of [downloaded_ephem_data.txt], opened in mode [a] or [w]. *)
Definition download_ephemeris (response : option (list string))
    (append_mode : bool) (file : list string) : Z * list string :=
  match response with
  | None => (0%Z, file)
  | Some data_text =>
      (1%Z,
       ((if append_mode then file else [])
        ++ map with_newline (extract_ephemeris data_text))%list)
  end.

(** The flag a request gets from a server. *)
Definition ephem_status (server : request -> option (list string))
    (req : request) : Z :=
  fst (download_ephemeris (server req) (req_append req) []).

(** The file after the calls for the requests [issued], in order. *)
Definition ephem_file_after (server : request -> option (list string))
    (issued : list request) (file : list string) : list string :=
  fold_left
    (fun contents req =>
       snd (download_ephemeris (server req) (req_append req) contents))
    issued file.

(** The lines one successful request adds. *)
Definition chunk_lines (server : request -> option (list string))
    (req : request) : list string :=
  match server req with
  | Some data_text => map with_newline (extract_ephemeris data_text)
  | None => []
  end.

(** ** The rows of [download_observations] *)

(** The line written for one table row, from the texts of its cells. *)
Definition observation_line (columns : list string) : outcome string :=
  cell <- Py.index columns 0 ;;
  let date := Py.split cell in
  year <- Py.index date 0 ;;
  month <- Py.index date 1 ;;
  day_text <- Py.index date 2 ;;
  day <- Py.index (Py.split_on "." day_text) 0 ;;
  magn <- Py.index columns 3 ;;
  Ok (year ++ " " ++ month ++ " " ++ day ++ " " ++ magn ++ Py.nl).


(** ** [read_obs_data] *)

(** [d[key] = v] on a dictionary given as its list of items: the value of an
    existing key is replaced in place, a new key goes last. *)
Fixpoint setitem {V : Type} (d : list (string * V)) (key : string) (v : V)
    : list (string * V) :=
  match d with
  | [] => [(key, v)]
  | (k, x) :: rest =>
      if String.eqb k key then (k, v) :: rest
      else (k, x) :: setitem rest key v
  end.

Definition read_obs_step (data : list (string * (string * string)))
    (line : string) : list (string * (string * string)) :=
  let parts := Py.split (Py.strip line) in
  let date := Py.join " " (Py.slice 0 3 parts) in
  if (5 <=? List.length parts)%nat then
    match nth_error parts 3, nth_error parts 4 with
    | Some mag, Some band => setitem data date (mag, band)
    | _, _ => data
    end
  else data.

(** [read_obs_data(file_path)] on the lines of the file. *)
Definition read_obs_data (file : list string) : list (string * (string * string)) :=
  fold_left read_obs_step file [].

(** ** The names of [rename_and_move_files] *)

(** [s.replace(old, new)] for one-character texts. *)
Fixpoint replace_char (old new : ascii) (s : string) : string :=
  match s with
  | EmptyString => EmptyString
  | String c r =>
      String (if Ascii.eqb c old then new else c) (replace_char old new r)
  end.

Definition backslash : ascii := ascii_of_nat 92.

Definition new_object_name (object_name : string) : string :=
  replace_char " " "_"
    (replace_char "/" "_" (replace_char backslash "_" object_name)).

Definition new_combined (object_name start_date end_date : string) : string :=
  new_object_name object_name ++ "_total_observations_" ++ start_date ++ "_"
  ++ end_date ++ ".txt".

Definition new_reduced (object_name start_date end_date : string) : string :=
  new_object_name object_name ++ "_reduced_observations_" ++ start_date ++ "_"
  ++ end_date ++ ".txt".

(** ** Vocabulary for the further statements *)

(** The characters of a text. *)
Fixpoint chars (s : string) : list ascii :=
  match s with
  | EmptyString => []
  | String c r => c :: chars r
  end.

(** The line is one [extract_step] keeps. *)
Definition is_data_line (line : string) : bool :=
  (13 <? List.length (Py.split line))%nat.

(** The observation line can be joined: it has five fields or more and some
    ephemeris line has its date text. *)
Definition joinable (eph_file : list string) (obs_line : string) : bool :=
  (5 <=? List.length (fields obs_line))%nat
  && existsb (fun eph_line => String.eqb (line_date eph_line) (line_date obs_line))
       eph_file.

(** The line has the three fields of a date. *)
Definition has_date_fields (line : string) : bool :=
  negb (List.length (Py.split line) <? 3)%nat.

(** The last line of the file that [read_obs_data] keeps for a date. *)
Definition kept_for (date : string) (line : string) : bool :=
  (5 <=? List.length (fields line))%nat && String.eqb (line_date line) date.

(** The six fields [extract_step] copies from a data line. *)
Definition ephem_fields (line : string) : list string :=
  map (fun i => nth i (Py.split line) EmptyString) [0; 1; 2; 8; 9; 11]%nat.

(** The characters of a text that [strptime] reads as a date. *)
Definition date_char (c : ascii) : bool :=
  Calendar.is_digit c || Ascii.eqb c "-" || Ascii.eqb c " ".

(** ** Vocabulary for the statements about the offset *)

(** The exact value of a number, when it is finite. *)
Definition num_value (d : pynum) : option Q :=
  match d with
  | PyInt n => Some (inject_Z n)
  | PyFloat x => float_value x
  end.

(** The number [d] is finite and its exact value is the rational [q]. *)
Definition has_value (d : pynum) (q : Q) : Prop :=
  exists v, num_value d = Some v /\ v == q.

(** * Properties *)

Example combine_one :
  combine_data ["2023 1 1 1.5 1.2 10.0" ++ Py.nl] ["2023 1 1 18.5 V" ++ Py.nl]
  = (["2023 1 1 18.5 V 1.5 1.2 10.0" ++ Py.nl], 1%nat).
Proof. reflexivity. Qed.

Example split_ex : Py.split "  2023  1 1 " = ["2023"; "1"; "1"].
Proof. reflexivity. Qed.

Example strip_ex : Py.strip "  2023  1 1 " = "2023  1 1".
Proof. reflexivity. Qed.

Example strptime_ex : Calendar.strptime "2023-1-1" = Some 738521%Z.
Proof. reflexivity. Qed.

Example correct_ex :
  correct_dates 5 (PDatetime (Calendar.ymd2ord 2023 1 1)) (PFloat 365.25%float)
    ["2021 11 27 18.5 V 1.5 1.2 10.0" ++ Py.nl]
  = Ok ["-35 18.5 V 1.5 1.2 10.0 2021 11 27" ++ Py.nl].
Proof. vm_compute. reflexivity. Qed.

(** The sums are those of the doubles: with the period [float("100.8")] a
    row 2268 days before the perihelion, 22.5 periods, is carried one period
    further than the exact sums would, to 50.39999999999972. *)
Example correct_rounded_sums :
  decimal_float "100.8" = Some 0x1.9333333333333p+6%float
  /\ adjust_delta_days 30 (-2268) 0x1.9333333333333p+6%float
     = Ok (PyFloat 0x1.933333333330cp+5%float)
  /\ correct_dates 30 (PDatetime (Calendar.ymd2ord 2023 1 1))
       (PFloat 0x1.9333333333333p+6%float)
       ["2016 10 16 18.5 V 1.5 1.2 10.0" ++ Py.nl]
     = Ok ["50 18.5 V 1.5 1.2 10.0 2016 10 16" ++ Py.nl].
Proof. repeat split; vm_compute; reflexivity. Qed.

(** With the smallest negative period, -5e-324, both halves underflow to a
    zero: a row on the perihelion date enters no loop and is written. *)
Example correct_underflow :
  correct_dates 1 (PDatetime (Calendar.ymd2ord 2023 1 1)) (PFloat (-0x1p-1074)%float)
    ["2023 1 1 18.5 V 1.5 1.2 10.0" ++ Py.nl]
  = Ok ["0 18.5 V 1.5 1.2 10.0 2023 1 1" ++ Py.nl].
Proof. vm_compute. reflexivity. Qed.

(** ** The join *)

Lemma combine_eph_fold (obs_line : string) (eph_file : list string) (st : combine_state) :
  fold_left (combine_eph_line (fields obs_line) (line_date obs_line)) eph_file st
  = ((fst st ++ map (joined_line obs_line) (matching eph_file obs_line))%list,
     (snd st + List.length (matching eph_file obs_line))%nat).
Proof.
  revert st.
  induction eph_file as [|e eph IH]; intros [out n]; simpl.
  - now rewrite app_nil_r, Nat.add_0_r.
  - rewrite IH. unfold combine_eph_line, matching. simpl.
    fold (fields e). fold (line_date e).
    destruct (String.eqb (line_date e) (line_date obs_line)); simpl.
    + rewrite <- app_assoc. simpl. f_equal. lia.
    + reflexivity.
Qed.

Lemma combine_obs_step (eph_file : list string) (st : combine_state) (obs_line : string) :
  combine_obs_line eph_file st obs_line
  = ((fst st ++ rows_of_obs eph_file obs_line)%list,
     (snd st + List.length (rows_of_obs eph_file obs_line))%nat).
Proof.
  unfold combine_obs_line, rows_of_obs. fold (fields obs_line).
  fold (line_date obs_line).
  destruct (5 <=? List.length (fields obs_line))%nat.
  - rewrite combine_eph_fold. now rewrite length_map.
  - destruct st; simpl. now rewrite app_nil_r, Nat.add_0_r.
Qed.

Lemma combine_obs_fold (eph_file obs_file : list string) (st : combine_state) :
  fold_left (combine_obs_line eph_file) obs_file st
  = ((fst st ++ flat_map (rows_of_obs eph_file) obs_file)%list,
     (snd st + List.length (flat_map (rows_of_obs eph_file) obs_file))%nat).
Proof.
  revert st.
  induction obs_file as [|o obs IH]; intros st; simpl.
  - destruct st; simpl. now rewrite app_nil_r, Nat.add_0_r.
  - rewrite IH, combine_obs_step. simpl.
    rewrite <- app_assoc, length_app. f_equal. lia.
Qed.

(** The nested loops write, for each observation line in turn, one line per
    matching ephemeris line, and count them. *)
Lemma combine_data_rows (eph_file obs_file : list string) :
  combine_data eph_file obs_file
  = (flat_map (rows_of_obs eph_file) obs_file,
     List.length (flat_map (rows_of_obs eph_file) obs_file)).
Proof.
  unfold combine_data. now rewrite combine_obs_fold.
Qed.

(** ** Fields and lines *)

Lemma concat_cons (sep x : string) (xs : list string) :
  String.concat sep (x :: xs)
  = x ++ match xs with [] => EmptyString | _ :: _ => sep ++ String.concat sep xs end.
Proof.
  destruct xs; simpl; [|reflexivity].
  induction x; simpl; congruence.
Qed.

Lemma split_tokens (s : string) :
  Forall (fun t => is_token t = true) (Py.split s).
Proof.
  induction s as [|c r IH]; simpl; [constructor|].
  destruct (Py.isspace c) eqn:Hc; [exact IH|].
  assert (Hone : is_token (String c EmptyString) = true).
  { unfold is_token. simpl. now rewrite Hc. }
  destruct r as [|d r']; [now repeat constructor|].
  destruct (Py.isspace d) eqn:Hd; [now constructor|].
  destruct (Py.split (String d r')) as [|t ts]; [now repeat constructor|].
  inversion IH as [|? ? Ht Hts]; subst.
  constructor; [|exact Hts].
  unfold is_token in *. simpl. rewrite Hc. simpl.
  now apply andb_true_iff in Ht.
Qed.

Lemma token_not_empty (t : string) : is_token t = true -> t <> EmptyString.
Proof.
  unfold is_token. intros H ->. discriminate.
Qed.

Lemma token_space_free (t : string) : is_token t = true -> space_free t = true.
Proof.
  unfold is_token. intros H. now apply andb_true_iff in H.
Qed.

(** Two blank-free texts, each followed by nothing or by a blank and more,
    are equal when the whole texts are. *)
Lemma space_free_prefix_eq (x y r1 r2 : string) :
  space_free x = true -> space_free y = true ->
  (r1 = EmptyString \/ exists r, r1 = String " " r) ->
  (r2 = EmptyString \/ exists r, r2 = String " " r) ->
  x ++ r1 = y ++ r2 -> x = y /\ r1 = r2.
Proof.
  revert y.
  induction x as [|a x IH]; intros [|b y] Hx Hy H1 H2 Heq; simpl in *.
  - now split.
  - exfalso. destruct H1 as [->|[r ->]]; [discriminate|].
    injection Heq as <- _. discriminate.
  - exfalso. destruct H2 as [->|[r ->]]; [discriminate|].
    injection Heq as -> _. discriminate.
  - injection Heq as <- Heq.
    apply andb_true_iff in Hx. apply andb_true_iff in Hy.
    destruct (IH y) as [-> ->]; tauto.
Qed.

Lemma sep_tail_shape (xs : list string) :
  let tail := match xs with
              | [] => EmptyString
              | _ :: _ => " " ++ String.concat " " xs
              end in
  tail = EmptyString \/ exists r, tail = String " " r.
Proof.
  destruct xs; simpl; [now left|right; eauto].
Qed.

(** Joining fields with blanks loses nothing. *)
Lemma join_tokens_inj (l1 l2 : list string) :
  Forall (fun t => is_token t = true) l1 ->
  Forall (fun t => is_token t = true) l2 ->
  Py.join " " l1 = Py.join " " l2 -> l1 = l2.
Proof.
  unfold Py.join. revert l2.
  induction l1 as [|x xs IH]; intros [|y ys] H1 H2 Heq.
  - reflexivity.
  - exfalso. inversion H2 as [|? ? Hy _]; subst.
    rewrite concat_cons in Heq. simpl in Heq.
    apply token_not_empty in Hy. destruct y; [congruence|discriminate].
  - exfalso. inversion H1 as [|? ? Hx _]; subst.
    rewrite concat_cons in Heq. simpl in Heq.
    apply token_not_empty in Hx. destruct x; [congruence|discriminate].
  - inversion H1 as [|? ? Hx Hxs]; inversion H2 as [|? ? Hy Hys]; subst.
    rewrite !concat_cons in Heq.
    apply space_free_prefix_eq in Heq;
      [|now apply token_space_free|now apply token_space_free
       |apply sep_tail_shape|apply sep_tail_shape].
    destruct Heq as [-> Htail]. f_equal.
    destruct xs as [|x' xs'], ys as [|y' ys']; try discriminate; [reflexivity|].
    simpl in Htail. injection Htail as Htail.
    now apply IH.
Qed.

Lemma split_lstrip (s : string) : Py.split (Py.lstrip s) = Py.split s.
Proof.
  induction s as [|c r IH]; [reflexivity|].
  cbn [Py.lstrip]. destruct (Py.isspace c) eqn:Hc; [|reflexivity].
  rewrite IH. cbn [Py.split]. now rewrite Hc.
Qed.

Lemma rstrip_head (c d : ascii) (r t : string) :
  Py.rstrip (String c r) = String d t -> d = c.
Proof.
  cbn [Py.rstrip]. destruct (Py.rstrip r).
  - destruct (Py.isspace c); [discriminate|]. now intros [= <- _].
  - now intros [= <- _].
Qed.

Lemma split_cons_empty_tail (c : ascii) (r : string) :
  Py.isspace c = false -> Py.split r = [] ->
  Py.split (String c r) = [String c EmptyString].
Proof.
  intros Hc Hr. cbn [Py.split]. rewrite Hc.
  destruct r as [|d r']; [reflexivity|].
  destruct (Py.isspace d); rewrite Hr; reflexivity.
Qed.

Lemma split_rstrip (s : string) : Py.split (Py.rstrip s) = Py.split s.
Proof.
  induction s as [|c r IH]; [reflexivity|].
  cbn [Py.rstrip].
  destruct (Py.rstrip r) as [|d t] eqn:Hr.
  - cbn [Py.split] in IH. symmetry in IH.
    destruct (Py.isspace c) eqn:Hc.
    + cbn [Py.split]. rewrite Hc. now rewrite IH.
    + rewrite (split_cons_empty_tail c r Hc IH).
      exact (split_cons_empty_tail c EmptyString Hc eq_refl).
  - destruct r as [|d0 r0]; [discriminate|].
    pose proof (rstrip_head _ _ _ _ Hr) as ->.
    change (Py.split (String c (String d0 t)))
      with (if Py.isspace c then Py.split (String d0 t)
            else if Py.isspace d0
                 then String c EmptyString :: Py.split (String d0 t)
                 else match Py.split (String d0 t) with
                      | t0 :: ts => String c t0 :: ts
                      | [] => [String c EmptyString]
                      end).
    change (Py.split (String c (String d0 r0)))
      with (if Py.isspace c then Py.split (String d0 r0)
            else if Py.isspace d0
                 then String c EmptyString :: Py.split (String d0 r0)
                 else match Py.split (String d0 r0) with
                      | t0 :: ts => String c t0 :: ts
                      | [] => [String c EmptyString]
                      end).
    now rewrite IH.
Qed.

(** Stripping a line before splitting it changes nothing. *)
Lemma split_strip (s : string) : Py.split (Py.strip s) = Py.split s.
Proof.
  unfold Py.strip. now rewrite split_rstrip, split_lstrip.
Qed.

(** A field followed by nothing or by a blank is the first field. *)
Lemma split_token_app (t rest : string) :
  is_token t = true ->
  (rest = EmptyString \/ exists c r, rest = String c r /\ Py.isspace c = true) ->
  Py.split (t ++ rest) = t :: Py.split rest.
Proof.
  intros Ht Hrest. apply andb_true_iff in Ht. destruct Ht as [Hne Hfree].
  induction t as [|c t IH]; [discriminate|].
  cbn [space_free] in Hfree. apply andb_true_iff in Hfree.
  destruct Hfree as [Hc Hfree]. apply negb_true_iff in Hc.
  destruct t as [|d t'].
  - cbn [append]. cbn [Py.split]. rewrite Hc.
    destruct Hrest as [->|[c' [r [-> Hc']]]]; [reflexivity|].
    now rewrite Hc'.
  - assert (Hd : Py.isspace d = false).
    { cbn [space_free] in Hfree. apply andb_true_iff in Hfree.
      now apply negb_true_iff. }
    specialize (IH eq_refl Hfree).
    change (Py.split (String c (String d t') ++ rest))
      with (if Py.isspace c then Py.split (String d t' ++ rest)
            else if Py.isspace d
                 then String c EmptyString :: Py.split (String d t' ++ rest)
                 else match Py.split (String d t' ++ rest) with
                      | t0 :: ts => String c t0 :: ts
                      | [] => [String c EmptyString]
                      end).
    now rewrite Hc, Hd, IH.
Qed.

Lemma append_assoc (a b c : string) : (a ++ b) ++ c = a ++ (b ++ c).
Proof.
  induction a as [|x a IH]; cbn; [reflexivity|now rewrite IH].
Qed.

(** Splitting a written line gives back the fields it was joined from. *)
Lemma split_join_line (parts : list string) :
  Forall (fun t => is_token t = true) parts ->
  Py.split (Py.join " " parts ++ Py.nl) = parts.
Proof.
  unfold Py.join.
  induction parts as [|x xs IH]; intros Hparts; [reflexivity|].
  inversion Hparts as [|? ? Hx Hxs]; subst.
  rewrite concat_cons, append_assoc.
  rewrite split_token_app; [|exact Hx|].
  - f_equal. destruct xs as [|y ys]; [reflexivity|].
    transitivity (Py.split (String.concat " " (y :: ys) ++ Py.nl));
      [reflexivity|exact (IH Hxs)].
  - right. destruct xs as [|y ys]; do 2 eexists; split; reflexivity.
Qed.

Lemma fields_tokens (line : string) :
  Forall (fun t => is_token t = true) (fields line).
Proof. apply split_tokens. Qed.

Lemma slice_tokens (i j : nat) (l : list string) :
  Forall (fun t => is_token t = true) l ->
  Forall (fun t => is_token t = true) (Py.slice i j l).
Proof.
  intros H. unfold Py.slice.
  rewrite <- (firstn_skipn i l) in H. apply Forall_app in H.
  destruct H as [_ H].
  rewrite <- (firstn_skipn (j - i) (skipn i l)) in H. apply Forall_app in H.
  exact (proj1 H).
Qed.

(** The date texts of two lines are equal exactly when their first three
    fields are the same texts. *)
Lemma line_date_eq_iff (l1 l2 : string) :
  line_date l1 = line_date l2
  <-> Py.slice 0 3 (fields l1) = Py.slice 0 3 (fields l2).
Proof.
  unfold line_date, date_key. split; [|congruence].
  apply join_tokens_inj; apply slice_tokens, fields_tokens.
Qed.

Lemma NoDup_map_In_eq {A B : Type} (f : A -> B) (l : list A) (x y : A) :
  NoDup (map f l) -> In x l -> In y l -> f x = f y -> x = y.
Proof.
  induction l as [|a l IH]; simpl; intros Hnd Hx Hy Hf; [contradiction|].
  inversion Hnd as [|b m Hnotin Hnd']; subst.
  destruct Hx as [->|Hx], Hy as [->|Hy]; auto.
  - exfalso. apply Hnotin. rewrite Hf. now apply in_map.
  - exfalso. apply Hnotin. rewrite <- Hf. now apply in_map.
Qed.

Lemma matching_In (eph_file : list string) (obs_line eph_line : string) :
  In eph_line (matching eph_file obs_line)
  <-> In eph_line eph_file /\ line_date eph_line = line_date obs_line.
Proof.
  unfold matching. rewrite filter_In, String.eqb_eq. tauto.
Qed.

Lemma matching_at_most_one (eph_file : list string) (obs_line : string) :
  NoDup (map line_date eph_file) ->
  (List.length (matching eph_file obs_line) <= 1)%nat.
Proof.
  induction eph_file as [|e eph IH]; simpl; intros Hnd; [lia|].
  inversion Hnd as [|b m Hnotin Hnd']; subst.
  destruct (String.eqb (line_date e) (line_date obs_line)) eqn:He; simpl.
  - apply String.eqb_eq in He.
    destruct (matching eph obs_line) as [|e' rest] eqn:Hm; simpl; [lia|].
    exfalso. apply Hnotin.
    assert (Hin : In e' (matching eph obs_line)) by (rewrite Hm; now left).
    apply matching_In in Hin. destruct Hin as [Hin Hd].
    rewrite He, <- Hd. now apply in_map.
  - now apply IH.
Qed.

Lemma rows_of_obs_at_most_one (eph_file : list string) (obs_line : string) :
  NoDup (map line_date eph_file) ->
  (List.length (rows_of_obs eph_file obs_line) <= 1)%nat.
Proof.
  intros Hnd. unfold rows_of_obs.
  destruct (5 <=? List.length (fields obs_line))%nat; simpl; [|lia].
  rewrite length_map. now apply matching_at_most_one.
Qed.

Lemma flat_map_length_le {A B : Type} (f : A -> list B) (l : list A) :
  (forall a, In a l -> (List.length (f a) <= 1)%nat) ->
  (List.length (flat_map f l) <= List.length l)%nat.
Proof.
  induction l as [|a l IH]; simpl; intros H; [lia|].
  rewrite length_app.
  specialize (H a (or_introl eq_refl)) as Ha.
  assert (List.length (flat_map f l) <= List.length l)%nat by (apply IH; auto).
  lia.
Qed.

Lemma rows_of_obs_In (eph_file : list string) (obs_line row : string) :
  In row (rows_of_obs eph_file obs_line) ->
  exists eph_line,
    In eph_line eph_file
    /\ line_date eph_line = line_date obs_line
    /\ (5 <= List.length (fields obs_line))%nat
    /\ row = joined_line obs_line eph_line.
Proof.
  unfold rows_of_obs.
  destruct (5 <=? List.length (fields obs_line))%nat eqn:H5; [|contradiction].
  rewrite in_map_iff. intros [e [<- Hin]].
  apply matching_In in Hin. destruct Hin as [Hin Hd].
  exists e. repeat split; auto. now apply Nat.leb_le.
Qed.

Lemma rows_of_obs_no_match (eph_file : list string) (obs_line : string) :
  (forall eph_line, In eph_line eph_file -> line_date eph_line <> line_date obs_line) ->
  rows_of_obs eph_file obs_line = [].
Proof.
  intros Hno. unfold rows_of_obs.
  destruct (5 <=? List.length (fields obs_line))%nat; [|reflexivity].
  destruct (matching eph_file obs_line) as [|e rest] eqn:Hm; [reflexivity|].
  assert (Hin : In e (matching eph_file obs_line)) by (rewrite Hm; now left).
  apply matching_In in Hin. destruct Hin as [Hin Hd].
  now apply Hno in Hin.
Qed.

(** C4, as stated, fails: with two ephemeris lines of one date, a single
    observation line yields two joined lines. *)
Lemma combine_data_fan_out :
  let eph_file := ["2023 1 1 1.5 1.2 10.0" ++ Py.nl; "2023 1 1 1.6 1.3 11.0" ++ Py.nl] in
  let obs_file := ["2023 1 1 18.5 V" ++ Py.nl] in
  combine_data eph_file obs_file
  = (["2023 1 1 18.5 V 1.5 1.2 10.0" ++ Py.nl; "2023 1 1 18.5 V 1.6 1.3 11.0" ++ Py.nl],
     2%nat)
  /\ ~ (snd (combine_data eph_file obs_file) <= List.length obs_file)%nat.
Proof.
  split; [reflexivity|]. vm_compute. lia.
Qed.

(** The fields of a joined line are those of the observation line followed
    by fields 3 to 5 of the ephemeris line. *)
Lemma joined_line_fields (obs_line eph_line : string) :
  fields (joined_line obs_line eph_line)
  = (fields obs_line ++ Py.slice 3 6 (fields eph_line))%list.
Proof.
  unfold joined_line. unfold fields at 1. rewrite split_strip.
  apply split_join_line. apply Forall_app. split.
  - apply fields_tokens.
  - apply slice_tokens, fields_tokens.
Qed.

(** C4, amended: when no two ephemeris lines have the same date text, the
    join emits at most one line per observation line, and every emitted line
    is an observation line of at least five fields followed by fields 3 to 5
    (delta, r, phase) of the one ephemeris line that has its three date
    fields. *)
Theorem combine_data_unique_dates (eph_file obs_file : list string) :
  NoDup (map line_date eph_file) ->
  (snd (combine_data eph_file obs_file) <= List.length obs_file)%nat
  /\ forall row, In row (fst (combine_data eph_file obs_file)) ->
       exists obs_line eph_line,
         In obs_line obs_file
         /\ In eph_line eph_file
         /\ (5 <= List.length (fields obs_line))%nat
         /\ Py.slice 0 3 (fields eph_line) = Py.slice 0 3 (fields obs_line)
         /\ row = Py.join " " (fields obs_line ++ Py.slice 3 6 (fields eph_line))%list
                  ++ Py.nl
         /\ fields row = (fields obs_line ++ Py.slice 3 6 (fields eph_line))%list
         /\ forall other, In other eph_file ->
              Py.slice 0 3 (fields other) = Py.slice 0 3 (fields obs_line) ->
              other = eph_line.
Proof.
  intros Hnd. rewrite combine_data_rows. simpl. split.
  - apply flat_map_length_le. intros o _. now apply rows_of_obs_at_most_one.
  - intros row Hrow. apply in_flat_map in Hrow.
    destruct Hrow as [o [Ho Hrow]].
    apply rows_of_obs_In in Hrow.
    destruct Hrow as [e [He [Hd [H5 ->]]]].
    exists o, e. split; [exact Ho|]. split; [exact He|]. split; [exact H5|].
    split; [now apply line_date_eq_iff|]. split; [reflexivity|].
    split; [apply joined_line_fields|].
    intros other Hother Hdo. apply line_date_eq_iff in Hdo.
    apply (NoDup_map_In_eq line_date eph_file); auto. congruence.
Qed.

Lemma combine_data_unique_dates_witness :
  let eph_file := ["2023 1 1 1.5 1.2 10.0" ++ Py.nl; "2023 1 2 1.6 1.3 11.0" ++ Py.nl] in
  let obs_file := ["2023 1 1 18.5 V" ++ Py.nl; "2023 1 3 18.7 R" ++ Py.nl] in
  NoDup (map line_date eph_file)
  /\ (snd (combine_data eph_file obs_file) <= List.length obs_file)%nat.
Proof.
  intros eph_file obs_file.
  assert (Hnd : NoDup (map line_date eph_file)).
  { vm_compute. repeat constructor; simpl; intuition discriminate. }
  split; [exact Hnd|].
  exact (proj1 (combine_data_unique_dates eph_file obs_file Hnd)).
Defined.

(** C5: the join is a total function of the two files and raises nothing: it
    returns the lines written together with their exact count, and an
    observation line whose date text no ephemeris line has is left out, the
    lines and the count being those of the file without it. *)
Theorem combine_data_silent_drop (eph_file obs_file : list string) :
  snd (combine_data eph_file obs_file)
  = List.length (fst (combine_data eph_file obs_file))
  /\ forall obs_before obs_line obs_after,
       obs_file = (obs_before ++ obs_line :: obs_after)%list ->
       (forall eph_line, In eph_line eph_file ->
                         line_date eph_line <> line_date obs_line) ->
       combine_data eph_file [obs_line] = ([], 0%nat)
       /\ combine_data eph_file obs_file
          = combine_data eph_file (obs_before ++ obs_after).
Proof.
  split.
  - now rewrite combine_data_rows.
  - intros obs_before obs_line obs_after -> Hno.
    pose proof (rows_of_obs_no_match eph_file obs_line Hno) as Hrows.
    rewrite !combine_data_rows, !flat_map_app. simpl.
    now rewrite Hrows.
Qed.

Lemma combine_data_silent_drop_witness :
  let eph_file := ["2023 1 1 1.5 1.2 10.0" ++ Py.nl] in
  let dropped := "2023 1 2 18.5 V" ++ Py.nl in
  let kept := "2023 1 1 18.7 R" ++ Py.nl in
  combine_data eph_file [dropped; kept] = combine_data eph_file [kept].
Proof.
  intros eph_file dropped kept.
  refine (proj2 (proj2 (combine_data_silent_drop eph_file [dropped; kept])
                   [] dropped [kept] eq_refl _)).
  intros e [<-|[]]. vm_compute. discriminate.
Defined.

(** ** Dates are compared as text *)

Lemma matching_skips (eph_before eph_after : list string)
    (eph_line obs_line : string) :
  line_date eph_line <> line_date obs_line ->
  matching (eph_before ++ eph_line :: eph_after) obs_line
  = matching (eph_before ++ eph_after) obs_line.
Proof.
  intros Hne. unfold matching. rewrite !filter_app. cbn [filter].
  apply String.eqb_neq in Hne. now rewrite Hne.
Qed.

(** C10: the join compares the first three fields as text.  An ephemeris
    line whose date is that of the observation line as numbers but is
    written differently is not joined with it: the join writes and counts
    what it would without that ephemeris line, and nothing for the two lines
    alone. *)
Theorem combine_data_textual_dates (eph_before eph_after : list string)
    (eph_line obs_line : string) :
  numeric_date eph_line = numeric_date obs_line ->
  Py.slice 0 3 (fields eph_line) <> Py.slice 0 3 (fields obs_line) ->
  combine_data (eph_before ++ eph_line :: eph_after) [obs_line]
  = combine_data (eph_before ++ eph_after) [obs_line]
  /\ combine_data [eph_line] [obs_line] = ([], 0%nat).
Proof.
  intros _ Htext.
  assert (Hne : line_date eph_line <> line_date obs_line).
  { intros Hd. now apply line_date_eq_iff in Hd. }
  assert (Hskip : forall before after,
             combine_data (before ++ eph_line :: after) [obs_line]
             = combine_data (before ++ after) [obs_line]).
  { intros before after. rewrite !combine_data_rows. cbn [flat_map].
    unfold rows_of_obs. now rewrite matching_skips. }
  split; [apply Hskip|].
  change [eph_line] with (@nil string ++ eph_line :: @nil string)%list.
  rewrite (Hskip [] []). rewrite combine_data_rows. cbn [flat_map app].
  unfold rows_of_obs. cbn [matching filter map].
  now destruct (5 <=? List.length (fields obs_line))%nat.
Qed.

Lemma combine_data_textual_dates_witness :
  let eph_line := "2023 01 01 1.5 1.2 10.0" ++ Py.nl in
  let obs_line := "2023 1 1 18.5 V" ++ Py.nl in
  numeric_date eph_line = Some (2023, 1, 1)%Z
  /\ numeric_date obs_line = Some (2023, 1, 1)%Z
  /\ combine_data [eph_line] [obs_line] = ([], 0%nat).
Proof.
  intros eph_line obs_line.
  split; [reflexivity|]. split; [reflexivity|].
  refine (proj2 (combine_data_textual_dates [] [] eph_line obs_line eq_refl _)).
  vm_compute. discriminate.
Defined.

(** ** Epoch normalisation *)

Lemma while_below_turn (fuel : nat) (d : pynum) (period : PrimFloat.float) :
  while_below (S fuel) d period
  = if num_ltb d (- period / 2)%float
    then x <- num_add d period ;; while_below fuel (PyFloat x) period
    else Ok d.
Proof. reflexivity. Qed.

Lemma while_above_turn (fuel : nat) (d : pynum) (period : PrimFloat.float) :
  while_above (S fuel) d period
  = if num_gtb d (period / 2)%float
    then x <- num_sub d period ;; while_above fuel (PyFloat x) period
    else Ok d.
Proof. reflexivity. Qed.




(** A run that ends keeps its result when more fuel is given. *)
Lemma while_below_more_fuel (period : PrimFloat.float) (fuel extra : nat) :
  forall d reached,
    while_below fuel d period = Ok reached ->
    while_below (fuel + extra) d period = Ok reached.
Proof.
  induction fuel as [|fuel IH]; intros d reached; [discriminate|].
  change (S fuel + extra)%nat with (S (fuel + extra)).
  rewrite !while_below_turn.
  destruct (num_ltb d (- period / 2)%float); [|auto].
  destruct (num_add d period); try discriminate.
  cbn [bind]. apply IH.
Qed.

Lemma while_above_more_fuel (period : PrimFloat.float) (fuel extra : nat) :
  forall d offset,
    while_above fuel d period = Ok offset ->
    while_above (fuel + extra) d period = Ok offset.
Proof.
  induction fuel as [|fuel IH]; intros d offset; [discriminate|].
  change (S fuel + extra)%nat with (S (fuel + extra)).
  rewrite !while_above_turn.
  destruct (num_gtb d (period / 2)%float); [|auto].
  destruct (num_sub d period); try discriminate.
  cbn [bind]. apply IH.
Qed.

Lemma adjust_delta_days_more_fuel (fuel fuel' : nat) (delta_days : Z)
    (period : PrimFloat.float) (offset : pynum) :
  (fuel <= fuel')%nat ->
  adjust_delta_days fuel delta_days period = Ok offset ->
  adjust_delta_days fuel' delta_days period = Ok offset.
Proof.
  intros Hle. replace fuel' with (fuel + (fuel' - fuel))%nat by lia.
  unfold adjust_delta_days.
  destruct (while_below fuel (PyInt delta_days) period) as [reached| |] eqn:Hbelow;
    try discriminate.
  cbn [bind]. intros Habove.
  rewrite (while_below_more_fuel _ _ _ _ _ Hbelow). cbn [bind].
  now apply while_above_more_fuel.
Qed.

Lemma row_date_length (parts : list string) (current_date : Z) :
  row_date parts = Some current_date -> (List.length parts <? 3)%nat = false.
Proof.
  unfold row_date, Py.slice. simpl.
  destruct parts as [|a [|b [|c rest]]]; simpl; try discriminate.
  reflexivity.
Qed.

(** The line of a row, from the run of the two loops on its day
    difference. *)
Lemma correct_line_of_offset (line : string) (perihelion_date current_date : Z)
    (period : PrimFloat.float) (fuel : nat) :
  row_date (Py.split line) = Some current_date ->
  correct_line fuel (PDatetime perihelion_date) (PFloat period) line
  = (offset <- adjust_delta_days fuel (current_date - perihelion_date) period ;;
     delta_days_rounded <- round offset ;;
     Ok (Some (modified_line delta_days_rounded (Py.split line)))).
Proof.
  intros Hdate. unfold correct_line.
  rewrite (row_date_length _ _ Hdate), Hdate. reflexivity.
Qed.


(** A period that the sum absorbs: the first loop never ends. *)
Lemma while_below_absorbed (period x : PrimFloat.float) :
  PrimFloat.ltb x (- period / 2)%float = true ->
  PrimFloat.add x period = x ->
  forall fuel, while_below fuel (PyFloat x) period = OutOfFuel.
Proof.
  intros Htest Hsame fuel. induction fuel as [|fuel IH]; [reflexivity|].
  rewrite while_below_turn. cbn [num_ltb num_add bind].
  now rewrite Htest, Hsame.
Qed.

Lemma while_above_absorbed (period x : PrimFloat.float) :
  PrimFloat.ltb (period / 2)%float x = true ->
  PrimFloat.sub x period = x ->
  forall fuel, while_above fuel (PyFloat x) period = OutOfFuel.
Proof.
  intros Htest Hsame fuel. induction fuel as [|fuel IH]; [reflexivity|].
  rewrite while_above_turn. cbn [num_gtb num_sub bind].
  now rewrite Htest, Hsame.
Qed.




(** The value of a number, when it is finite. *)
Lemma has_value_float (x : PrimFloat.float) (v q : Q) :
  float_value x = Some v -> v == q -> has_value (PyFloat x) q.
Proof. intros Hv Hq. exists v. split; assumption. Qed.

(** C8, as stated, fails: a row 400 days before the perihelion has the day
    difference -400, which one added period of 365.25 days brings to -34.75,
    rounded to -35: the offset is negative, not 35. *)
Lemma correct_dates_before_perihelion_negative :
  let perihelion_date := Calendar.ymd2ord 2023 1 1 in
  let line := "2021 11 27 18.5 V 1.5 1.2 10.0" ++ Py.nl in
  row_date (Py.split line) = Some (perihelion_date - 400)%Z
  /\ (exists offset,
        adjust_delta_days 2 (-400) 365.25%float = Ok offset
        /\ has_value offset (- (3475 # 100))
        /\ ~ has_value offset (400 - (36525 # 100))
        /\ round offset = Ok (-35)%Z
        /\ round offset <> Ok 35%Z)
  /\ correct_dates 2 (PDatetime perihelion_date) (PFloat 365.25%float) [line]
     = Ok ["-35 18.5 V 1.5 1.2 10.0 2021 11 27" ++ Py.nl].
Proof.
  split; [reflexivity|]. split; [|vm_compute; reflexivity].
  exists (PyFloat (-34.75)%float). split; [vm_compute; reflexivity|].
  split; [eapply has_value_float; [vm_compute; reflexivity|reflexivity]|].
  split; [|split; [vm_compute; reflexivity|vm_compute; discriminate]].
  intros [v [Hv Hq]]. vm_compute in Hv. injection Hv as <-.
  vm_compute in Hq. discriminate.
Qed.

Lemma adjust_400_days_before (fuel : nat) :
  (2 <= fuel)%nat ->
  adjust_delta_days fuel (-400) 365.25%float = Ok (PyFloat (-34.75)%float).
Proof.
  intros Hfuel.
  apply (adjust_delta_days_more_fuel 2); [exact Hfuel|].
  vm_compute. reflexivity.
Qed.

(** C8, amended: for a row whose date is 400 days before the perihelion and
    a period of 365.25 days, the wrapped offset is -400 + 365.25 = -34.75,
    which is written rounded to -35. *)
Theorem correct_line_400_days_before (line : string)
    (perihelion_date current_date : Z) (fuel : nat) :
  row_date (Py.split line) = Some current_date ->
  (current_date - perihelion_date = -400)%Z ->
  (2 <= fuel)%nat ->
  exists offset,
    adjust_delta_days fuel (current_date - perihelion_date) 365.25%float = Ok offset
    /\ has_value offset (- (3475 # 100))
    /\ round offset = Ok (-35)%Z
    /\ correct_line fuel (PDatetime perihelion_date) (PFloat 365.25%float) line
       = Ok (Some (modified_line (-35) (Py.split line))).
Proof.
  intros Hdate Hdiff Hfuel.
  pose proof (adjust_400_days_before fuel Hfuel) as Hrun.
  exists (PyFloat (-34.75)%float). rewrite Hdiff.
  split; [exact Hrun|].
  split; [eapply has_value_float; [vm_compute; reflexivity|reflexivity]|].
  split; [vm_compute; reflexivity|].
  rewrite (correct_line_of_offset _ _ _ _ _ Hdate), Hdiff, Hrun.
  cbn [bind]. run_step. reflexivity.
Qed.

Lemma correct_line_400_days_before_witness :
  exists offset,
    adjust_delta_days 2 (738121 - 738521) 365.25%float = Ok offset
    /\ has_value offset (- (3475 # 100))
    /\ round offset = Ok (-35)%Z
    /\ correct_line 2 (PDatetime 738521) (PFloat 365.25%float)
         ("2021 11 27 18.5 V 1.5 1.2 10.0" ++ Py.nl)
       = Ok (Some (modified_line (-35)
                     (Py.split ("2021 11 27 18.5 V 1.5 1.2 10.0" ++ Py.nl)))).
Proof.
  apply (correct_line_400_days_before
           ("2021 11 27 18.5 V 1.5 1.2 10.0" ++ Py.nl) 738521 738121 2).
  - reflexivity.
  - reflexivity.
  - lia.
Defined.

(** ** Magnitude reduction *)

Section ReduceProperties.

Context {F : Type} {ops : FloatOps F}.

Lemma index_inv {A : Type} (l : list A) (i : nat) (a : A) :
  Py.index l i = Ok a <-> nth_error l i = Some a.
Proof.
  unfold Py.index. destruct (nth_error l i); split; congruence.
Qed.

Lemma index_cases {A : Type} (l : list A) (i : nat) :
  (exists a, Py.index l i = Ok a) \/ Py.index l i = Raise IndexError.
Proof.
  unfold Py.index. destruct (nth_error l i); eauto.
Qed.

Lemma float_field_cases (parts : list string) (i : nat) :
  (exists x : F, float_field parts i = Ok x) \/ failed (float_field parts i).
Proof.
  unfold float_field, failed.
  destruct (index_cases parts i) as [[s ->]| ->]; cbn [bind]; [|eauto].
  destruct (fl_parse s); cbn [of_option]; eauto.
Qed.

(** Every entry of the table holds exactly one correction. *)
Lemma getitem_singleton (filter_value : string) (entry : list Q) :
  getitem v_band_correction filter_value = Ok entry ->
  exists correction, entry = [correction].
Proof.
  unfold v_band_correction. cbn [getitem].
  repeat match goal with
         | |- (if ?b then _ else _) = _ -> _ =>
             destruct b; [intros [= <-]; eauto|]
         end.
  discriminate.
Qed.

Lemma getitem_not_in_table {V : Type} (d : list (string * V)) (key : string) :
  existsb (fun item => String.eqb (fst item) key) d = false ->
  getitem d key = Raise KeyError.
Proof.
  induction d as [|[k v] d IH]; simpl; [reflexivity|].
  destruct (String.eqb k key); simpl; [discriminate|exact IH].
Qed.

(** What one iteration does when it does not raise. *)
Lemma reduce_line_ok (st st' : reduce_state F) (line : string) :
  reduce_line st line = Ok st' ->
  (is_discarded line = true
   /\ outfile st' = outfile st
   /\ n_obs_left st' = n_obs_left st
   /\ n_discarded_obs st' = S (n_discarded_obs st))
  \/ (is_discarded line = false
      /\ exists row, reduced_from line row
         /\ outfile st' = (outfile st ++ [row])%list
         /\ n_obs_left st' = S (n_obs_left st)
         /\ n_discarded_obs st' = n_discarded_obs st).
Proof.
  unfold reduce_line, is_discarded, line_filter, reduced_from.
  set (parts := Py.split line).
  destruct (float_field parts 1) as [m_observed| |] eqn:Hm; try discriminate.
  cbn [bind].
  destruct (Py.index parts 2) as [filter_value| |] eqn:Hf; try discriminate.
  cbn [bind]. rewrite (proj1 (index_inv _ _ _) Hf).
  destruct (float_field parts 3) as [delta_value| |] eqn:Hd; try discriminate.
  cbn [bind].
  destruct (float_field parts 4) as [r_value| |] eqn:Hr; try discriminate.
  cbn [bind].
  destruct (Py.member filter_value discarded_filters) eqn:Hdisc; cbn [negb].
  - intros [= <-]. left. cbn. auto.
  - unfold absolute_magnitude.
    destruct (fl_log10 (fl_mul delta_value r_value)) as [lg|] eqn:Hlg;
      cbn [of_option bind]; try discriminate.
    destruct (getitem v_band_correction filter_value) as [entry| |] eqn:Hg;
      try discriminate.
    destruct (getitem_singleton _ _ Hg) as [correction ->].
    cbn [bind Py.index nth_error].
    destruct (Py.index parts 6) as [p6| |] eqn:H6; try discriminate.
    destruct (Py.index parts 7) as [p7| |] eqn:H7; try discriminate.
    destruct (Py.index parts 8) as [p8| |] eqn:H8; try discriminate.
    destruct (Py.index parts 0) as [p0| |] eqn:H0; try discriminate.
    destruct (Py.index parts 3) as [p3| |] eqn:H3; try discriminate.
    destruct (Py.index parts 4) as [p4| |] eqn:H4; try discriminate.
    destruct (Py.index parts 5) as [p5| |] eqn:H5; try discriminate.
    destruct (Py.index parts 1) as [p1| |] eqn:H1; try discriminate.
    cbn [bind]. intros [= <-]. right. split; [reflexivity|].
    eexists. split; [|cbn; auto].
    exists m_observed, delta_value, r_value, lg, filter_value, correction.
    cbn [rr_m_abs rr_fields map].
    apply index_inv in H6, H7, H8, H0, H3, H4, H5, H1.
    rewrite H6, H7, H8, H0, H3, H4, H5, H1.
    repeat split; auto.
Qed.

Lemma reduce_loop_ok (infile : list string) (st st' : reduce_state F) :
  reduce_loop infile st = Ok st' ->
  exists rows,
    outfile st' = (outfile st ++ rows)%list
    /\ Forall2 reduced_from (filter (fun l => negb (is_discarded l)) infile) rows
    /\ n_obs_left st' = (n_obs_left st + List.length rows)%nat
    /\ n_discarded_obs st'
       = (n_discarded_obs st + List.length (filter is_discarded infile))%nat.
Proof.
  revert st.
  induction infile as [|line rest IH]; intros st; cbn [reduce_loop].
  - intros [= <-]. exists []. cbn. rewrite app_nil_r.
    repeat split; auto.
  - destruct (reduce_line st line) as [st1| |] eqn:Hline; try discriminate.
    cbn [bind]. intros Hrest.
    destruct (IH _ Hrest) as [rows [Hout [Hrows [Hleft Hdisc]]]].
    apply reduce_line_ok in Hline.
    destruct Hline as [[Hd [Ho [Hl Hn]]] | [Hd [row [Hrow [Ho [Hl Hn]]]]]].
    + exists rows. cbn [filter]. rewrite Hd. cbn [negb].
      rewrite Hout, Ho, Hleft, Hl, Hdisc, Hn. cbn [List.length].
      repeat split; auto; lia.
    + exists (row :: rows). cbn [filter]. rewrite Hd. cbn [negb].
      rewrite Hout, Ho, Hleft, Hl, Hdisc, Hn. cbn [List.length].
      rewrite <- app_assoc. repeat split; auto; lia.
Qed.

Lemma filter_partition_length {A : Type} (p : A -> bool) (l : list A) :
  (List.length (filter (fun a => negb (p a)) l) + List.length (filter p l)
   = List.length l)%nat.
Proof.
  induction l as [|a l IH]; simpl; [reflexivity|].
  destruct (p a); simpl; lia.
Qed.


Lemma reduce_loop_app (l1 l2 : list string) (st : reduce_state F) :
  reduce_loop (l1 ++ l2) st = (st' <- reduce_loop l1 st ;; reduce_loop l2 st').
Proof.
  revert st. induction l1 as [|line l1 IH]; intros st; cbn [reduce_loop app bind].
  - reflexivity.
  - destruct (reduce_line st line); cbn [bind]; auto.
Qed.

Lemma reduce_line_cases (st : reduce_state F) (line : string) :
  (exists st', reduce_line st line = Ok st') \/ failed (reduce_line st line).
Proof.
  unfold reduce_line, failed, absolute_magnitude.
  set (parts := Py.split line).
  destruct (float_field_cases parts 1) as [[m ->]|[e ->]]; cbn [bind]; [|eauto].
  destruct (index_cases parts 2) as [[f ->]| ->]; cbn [bind]; [|eauto].
  destruct (float_field_cases parts 3) as [[d ->]|[e ->]]; cbn [bind]; [|eauto].
  destruct (float_field_cases parts 4) as [[r ->]|[e ->]]; cbn [bind]; [|eauto].
  destruct (Py.member f discarded_filters); cbn [negb]; [eauto|].
  destruct (fl_log10 (fl_mul d r)); cbn [of_option bind]; [|eauto].
  destruct (getitem v_band_correction f) as [entry| |] eqn:Hg; cbn [bind]; eauto.
  - destruct (getitem_singleton _ _ Hg) as [c ->]. cbn [Py.index nth_error bind].
    repeat match goal with
           | |- context [Py.index parts ?i] =>
               destruct (index_cases parts i) as [[? ->]| ->]; cbn [bind]; [|eauto]
           end.
    eauto.
  - exfalso. clear -Hg. revert Hg. generalize v_band_correction.
    induction l as [|[k v] l IH]; simpl; [discriminate|].
    destruct (String.eqb k f); [discriminate|exact IH].
Qed.

Lemma reduce_loop_cases (infile : list string) (st : reduce_state F) :
  (exists st', reduce_loop infile st = Ok st') \/ failed (reduce_loop infile st).
Proof.
  revert st. induction infile as [|line rest IH]; intros st; cbn [reduce_loop].
  - eauto.
  - destruct (reduce_line_cases st line) as [[st1 ->]|[e ->]]; cbn [bind].
    + apply IH.
    + right. exists e. reflexivity.
Qed.

(** A line whose filter is neither discarded nor in the table makes its
    iteration raise; when its numbers are fine the exception is the
    [KeyError] of the table lookup. *)
Lemma reduce_line_unknown_filter (st : reduce_state F) (line filter_value : string) :
  line_filter line = Some filter_value ->
  Py.member filter_value discarded_filters = false ->
  in_table filter_value = false ->
  failed (reduce_line st line)
  /\ forall m_observed delta_value r_value lg,
       float_field (Py.split line) 1 = Ok m_observed ->
       float_field (Py.split line) 3 = Ok delta_value ->
       float_field (Py.split line) 4 = Ok r_value ->
       fl_log10 (fl_mul delta_value r_value) = Some lg ->
       reduce_line st line = Raise KeyError.
Proof.
  unfold line_filter. intros Hf Hdisc Htable.
  apply index_inv in Hf.
  apply getitem_not_in_table in Htable.
  unfold reduce_line, failed, absolute_magnitude.
  set (parts := Py.split line) in *. split.
  - destruct (float_field_cases parts 1) as [[m ->]|[e ->]]; cbn [bind]; [|eauto].
    rewrite Hf. cbn [bind].
    destruct (float_field_cases parts 3) as [[d ->]|[e ->]]; cbn [bind]; [|eauto].
    destruct (float_field_cases parts 4) as [[r ->]|[e ->]]; cbn [bind]; [|eauto].
    rewrite Hdisc. cbn [negb].
    destruct (fl_log10 (fl_mul d r)); cbn [of_option bind]; [|eauto].
    rewrite Htable. cbn [bind]. eauto.
  - intros m d r lg -> -> -> Hlg. cbn [bind]. rewrite Hf. cbn [bind].
    rewrite Hdisc. cbn [negb]. rewrite Hlg. cbn [of_option bind].
    rewrite Htable. reflexivity.
Qed.

(** C7: an input with a line whose filter is neither in the discard list nor
    a key of the correction table makes the reduction raise: it returns no
    rows and no counts.  When the lines before it are reduced without error
    and the numbers of the line are fine, the exception is the [KeyError] of
    the lookup of that filter. *)
Theorem reduce_magnitudes_unknown_filter (before after : list string)
    (line filter_value : string) :
  line_filter line = Some filter_value ->
  Py.member filter_value discarded_filters = false ->
  in_table filter_value = false ->
  failed (reduce_magnitudes (before ++ line :: after))
  /\ forall st m_observed delta_value r_value lg,
       reduce_magnitudes before = Ok st ->
       float_field (Py.split line) 1 = Ok m_observed ->
       float_field (Py.split line) 3 = Ok delta_value ->
       float_field (Py.split line) 4 = Ok r_value ->
       fl_log10 (fl_mul delta_value r_value) = Some lg ->
       reduce_magnitudes (before ++ line :: after) = Raise KeyError.
Proof.
  intros Hf Hdisc Htable. unfold reduce_magnitudes.
  rewrite reduce_loop_app. cbn [reduce_loop]. split.
  - destruct (reduce_loop_cases before
                {| outfile := []; n_obs_left := 0; n_discarded_obs := 0 |})
      as [[st ->]|[e ->]]; cbn [bind].
    + destruct (proj1 (reduce_line_unknown_filter st line filter_value
                         Hf Hdisc Htable)) as [e ->].
      exists e. reflexivity.
    + exists e. reflexivity.
  - intros st m d r lg -> Hm Hd Hr Hlg. cbn [bind].
    rewrite (proj2 (reduce_line_unknown_filter st line filter_value
                      Hf Hdisc Htable) m d r lg Hm Hd Hr Hlg).
    reflexivity.
Qed.

(** A line of nine fields or more whose numbers are read, whose filter is
    kept and known, and whose distances have a logarithm, is reduced without
    error. *)
Lemma reduce_line_kept (st : reduce_state F) (line : string)
    (p0 p1 filter_value p3 p4 p5 p6 p7 p8 : string) (more : list string)
    (m_observed delta_value r_value lg : F) (correction : Q) :
  Py.split line = p0 :: p1 :: filter_value :: p3 :: p4 :: p5 :: p6 :: p7 :: p8 :: more ->
  fl_parse p1 = Some m_observed ->
  fl_parse p3 = Some delta_value ->
  fl_parse p4 = Some r_value ->
  Py.member filter_value discarded_filters = false ->
  fl_log10 (fl_mul delta_value r_value) = Some lg ->
  getitem v_band_correction filter_value = Ok [correction] ->
  reduce_line st line
  = Ok {| outfile :=
            (outfile st
             ++ [ {| rr_fields := [p6; p7; p8; p0; p3; p4; p5; p1];
                     rr_m_abs :=
                       fl_round2 (fl_add (fl_sub m_observed
                                            (fl_mul (fl_literal 5) lg))
                                         (fl_literal correction)) |} ])%list;
          n_obs_left := S (n_obs_left st);
          n_discarded_obs := n_discarded_obs st |}.
Proof.
  intros Hparts Hm Hd Hr Hdisc Hlg Hg.
  unfold reduce_line, float_field, absolute_magnitude. rewrite Hparts.
  cbn [Py.index nth_error bind]. rewrite Hm, Hd, Hr.
  cbn [of_option bind]. rewrite Hdisc. cbn [negb].
  rewrite Hlg. cbn [of_option bind]. rewrite Hg.
  reflexivity.
Qed.

End ReduceProperties.


Lemma reduce_magnitudes_unknown_filter_witness :
  reduce_magnitudes (F := float_term)
    ["0 18.5 V 1.5 1.2 10.0 2023 1 1" ++ Py.nl;
     "3 17.9 X 1.5 1.2 10.1 2023 1 4" ++ Py.nl]
  = Raise KeyError.
Proof.
  refine (proj2 (reduce_magnitudes_unknown_filter
                   ["0 18.5 V 1.5 1.2 10.0 2023 1 1" ++ Py.nl] []
                   ("3 17.9 X 1.5 1.2 10.1 2023 1 4" ++ Py.nl) "X"
                   eq_refl eq_refl eq_refl)
                 _ _ _ _ _ eq_refl eq_refl eq_refl eq_refl eq_refl).
Defined.

(** ** The worked example of the pipeline *)

Module RealFloatFacts.

Import RealFloat.
Local Open Scope R_scope.

Lemma Rfloor_of_bounds (y : R) (n : Z) :
  IZR n <= y -> y < IZR n + 1 -> Rfloor y = n.
Proof.
  intros Hlo Hhi. unfold Rfloor.
  assert (Hup : (n + 1)%Z = up y).
  { apply up_tech; [exact Hlo|]. rewrite plus_IZR. exact Hhi. }
  rewrite <- Hup. lia.
Qed.

(** A number less than half above an integer rounds to it. *)
Lemma Rround_of_bounds (y : R) (n : Z) :
  IZR n <= y -> y < IZR n + 1 / 2 -> Rround y = n.
Proof.
  intros Hlo Hhi. unfold Rround.
  rewrite (Rfloor_of_bounds y n Hlo) by lra.
  destruct (Rlt_dec (y - IZR n) (1 / 2)) as [_|Hn]; [reflexivity|].
  exfalso. apply Hn. lra.
Qed.

Lemma ln_10_pos : 0 < ln 10.
Proof.
  rewrite <- ln_1. apply ln_increasing; lra.
Qed.

Lemma ln_pow_IZR (z e : Z) :
  (0 < z)%Z -> (0 <= e)%Z -> IZR e * ln (IZR z) = ln (IZR (z ^ e)).
Proof.
  intros Hz He. rewrite <- (Z2Nat.id e He) at 2.
  rewrite <- pow_IZR, ln_pow by (now apply IZR_lt).
  now rewrite INR_IZR_INZ, Z2Nat.id.
Qed.

(** [0.255 < log10(9/5)], from [10^51 * 5^200 < 9^200]. *)
Lemma log10_9_5_lower : 51 / 200 < ln (9 / 5) / ln 10.
Proof.
  pose proof ln_10_pos as H10.
  assert (Hln : ln (9 / 5) = ln 9 - ln 5).
  { unfold Rdiv. rewrite ln_mult, ln_Rinv; lra. }
  assert (Hcmp : 51 * ln 10 + 200 * ln 5 < 200 * ln 9).
  { rewrite !ln_pow_IZR by lia.
    rewrite <- ln_mult by (apply IZR_lt; reflexivity).
    rewrite <- mult_IZR.
    apply ln_increasing; apply IZR_lt; reflexivity. }
  rewrite Hln.
  apply (Rmult_lt_reg_r (ln 10)); [exact H10|].
  unfold Rdiv at 2. rewrite Rmult_assoc, Rinv_l by lra.
  lra.
Qed.

(** [log10(9/5) < 0.256], from [9^125 < 10^32 * 5^125]. *)
Lemma log10_9_5_upper : ln (9 / 5) / ln 10 < 32 / 125.
Proof.
  pose proof ln_10_pos as H10.
  assert (Hln : ln (9 / 5) = ln 9 - ln 5).
  { unfold Rdiv. rewrite ln_mult, ln_Rinv; lra. }
  assert (Hcmp : 125 * ln 9 < 32 * ln 10 + 125 * ln 5).
  { rewrite !ln_pow_IZR by lia.
    rewrite <- ln_mult by (apply IZR_lt; reflexivity).
    rewrite <- mult_IZR.
    apply ln_increasing; apply IZR_lt; reflexivity. }
  rewrite Hln.
  apply (Rmult_lt_reg_r (ln 10)); [exact H10|].
  unfold Rdiv at 1. rewrite Rmult_assoc, Rinv_l by lra.
  lra.
Qed.

End RealFloatFacts.

Section Scenario.

Local Open Scope R_scope.

(** [18.5 - 5*log10(1.5*1.2) + 0] lies between 17.22 and 17.225. *)
Lemma example_value :
  RealFloat.round2
    (Q2R (185 # 10)
     - Q2R 5 * (ln (Q2R (15 # 10) * Q2R (12 # 10)) / ln 10)
     + Q2R 0)
  = 1722 / 100.
Proof.
  unfold RealFloat.round2, Q2R. cbn [Qnum Qden].
  replace (15 * / 10 * (12 * / 10)) with (9 / 5) by field.
  pose proof RealFloatFacts.log10_9_5_lower as Hlo.
  pose proof RealFloatFacts.log10_9_5_upper as Hhi.
  set (L := ln (9 / 5) / ln 10) in *.
  rewrite (RealFloatFacts.Rround_of_bounds _ 1722); lra.
Qed.

Lemma example_reduced :
  reduce_magnitudes (ops := RealFloat.real_ops) [example_normalized]
  = Ok {| outfile :=
            [ {| rr_fields := ["2023"; "1"; "1"; "0"; "1.5"; "1.2"; "10.0"; "18.5"];
                 rr_m_abs := 1722 / 100 |} ];
          n_obs_left := 1;
          n_discarded_obs := 0 |}.
Proof.
  unfold reduce_magnitudes. cbn [reduce_loop].
  rewrite (reduce_line_kept (ops := RealFloat.real_ops) _ example_normalized
             "0" "18.5" "V" "1.5" "1.2" "10.0" "2023" "1" "1" []
             (Q2R (185 # 10)) (Q2R (15 # 10)) (Q2R (12 # 10))
             (ln (Q2R (15 # 10) * Q2R (12 # 10)) / ln 10) 0%Q);
    try reflexivity.
  - cbn [bind outfile n_obs_left n_discarded_obs app fl_round2 fl_add fl_sub
         fl_mul fl_literal RealFloat.real_ops].
    now rewrite example_value.
  - cbn [fl_log10 fl_mul RealFloat.real_ops]. unfold RealFloat.log10.
    destruct (Rlt_dec 0 (Q2R (15 # 10) * Q2R (12 # 10))) as [_|Hn];
      [reflexivity|].
    exfalso. apply Hn. unfold Q2R. cbn [Qnum Qden]. lra.
Qed.

Lemma example_join : combine_data example_eph_file example_obs_file = ([example_joined], 1%nat).
Proof. reflexivity. Qed.

Lemma example_normalize :
  correct_dates 1 (PDatetime (Calendar.ymd2ord 2023 1 1)) (PFloat 365.25%float)
    [example_joined]
  = Ok [example_normalized].
Proof. vm_compute. reflexivity. Qed.

Lemma example_epoch :
  resolve_epoch decimal_float "2023-01-01.0" "1.0" ["yes"]
  = Ok ((PDatetime (Calendar.ymd2ord 2023 1 1), PFloat 365.25%float), []).
Proof. vm_compute. reflexivity. Qed.

(** C9, as stated, fails: on the example the reduction yields 17.22, since
    five times the decimal logarithm of 1.8 is about 1.2764, and not 17.71. *)
Lemma pipeline_example_not_17_71 :
  combine_data example_eph_file example_obs_file = ([example_joined], 1%nat)
  /\ correct_dates 1 (PDatetime (Calendar.ymd2ord 2023 1 1))
       (PFloat 365.25%float) [example_joined] = Ok [example_normalized]
  /\ exists st,
       reduce_magnitudes (ops := RealFloat.real_ops) [example_normalized] = Ok st
       /\ map rr_m_abs (outfile st) = [1722 / 100]
       /\ map rr_m_abs (outfile st) <> [1771 / 100].
Proof.
  split; [exact example_join|]. split; [exact example_normalize|].
  eexists. split; [exact example_reduced|].
  cbn [outfile map rr_m_abs]. split; [reflexivity|].
  intros [= H]. lra.
Qed.

(** C9, amended: on the example the join yields the single line
    [2023 1 1 18.5 V 1.5 1.2 10.0], the normalised offset is 0, and the
    absolute magnitude is 18.5 - 5*log10(1.5*1.2) + 0 rounded to two
    decimals, which is 17.22. *)
Theorem pipeline_example :
  RealFloat.round2
    (Q2R (185 # 10)
     - Q2R 5 * (ln (Q2R (15 # 10) * Q2R (12 # 10)) / ln 10)
     + Q2R 0)
  = 1722 / 100
  /\ combine_data example_eph_file example_obs_file = ([example_joined], 1%nat)
  /\ adjust_delta_days 1 (Calendar.ymd2ord 2023 1 1 - Calendar.ymd2ord 2023 1 1)
       365.25%float = Ok (PyInt 0)
  /\ correct_dates 1 (PDatetime (Calendar.ymd2ord 2023 1 1))
       (PFloat 365.25%float) [example_joined] = Ok [example_normalized]
  /\ reduce_magnitudes (ops := RealFloat.real_ops) [example_normalized]
     = Ok {| outfile :=
               [ {| rr_fields :=
                      ["2023"; "1"; "1"; "0"; "1.5"; "1.2"; "10.0"; "18.5"];
                    rr_m_abs := 1722 / 100 |} ];
             n_obs_left := 1;
             n_discarded_obs := 0 |}
  /\ main_pipeline (ops := RealFloat.real_ops) decimal_float 1
       example_eph_file example_obs_file "2023-01-01.0" "1.0" ["yes"]
     = Ok ([example_joined],
           Some {| outfile :=
                     [ {| rr_fields :=
                            ["2023"; "1"; "1"; "0"; "1.5"; "1.2"; "10.0"; "18.5"];
                          rr_m_abs := 1722 / 100 |} ];
                   n_obs_left := 1;
                   n_discarded_obs := 0 |}).
Proof.
  split; [exact example_value|].
  split; [exact example_join|]. split; [vm_compute; reflexivity|].
  split; [exact example_normalize|]. split; [exact example_reduced|].
  unfold main_pipeline.
  rewrite example_epoch, example_join. cbn [Nat.eqb negb].
  rewrite example_normalize. cbn [bind]. now rewrite example_reduced.
Qed.

End Scenario.

(** ** The chunked download *)

Module CalendarFacts.

Import Calendar.
Local Open Scope Z_scope.

Lemma is_digit_range (c : ascii) : is_digit c = true -> 0 <= digit c <= 9.
Proof.
  unfold is_digit, digit. intros H.
  apply andb_true_iff in H. destruct H as [H1 H2].
  apply Nat.leb_le in H1, H2. lia.
Qed.

Lemma in_range_bounds (lo hi : Z) (c : ascii) :
  in_range lo hi c = true -> lo <= digit c <= hi.
Proof.
  unfold in_range. intros H.
  apply andb_true_iff in H. destruct H as [H H2].
  apply andb_true_iff in H. destruct H as [_ H1].
  apply Z.leb_le in H1, H2. lia.
Qed.

Ltac split_bools :=
  repeat match goal with
         | H : _ && _ = true |- _ => apply andb_true_iff in H; destruct H
         | H : _ || _ = true |- _ => apply orb_true_iff in H; destruct H
         | H : Ascii.eqb _ _ = true |- _ => apply Ascii.eqb_eq in H; subst
         | H : in_range _ _ _ = true |- _ => apply in_range_bounds in H
         | H : is_digit _ = true |- _ => apply is_digit_range in H
         end.

Ltac known_digits :=
  try change (digit "0") with 0 in *;
  try change (digit "1") with 1 in *;
  try change (digit "3") with 3 in *.

Lemma parse_month_range (s r : string) (month : Z) :
  parse_month s = Some (month, r) -> 1 <= month <= 12.
Proof.
  unfold parse_month.
  assert (Hone : forall t,
             match t with
             | String a (String dash r0) =>
                 if in_range 1 9 a && Ascii.eqb dash "-"
                 then Some (digit a, r0) else None
             | _ => None
             end = Some (month, r) -> 1 <= month <= 12).
  { intros [|a [|dash r0]]; try discriminate.
    destruct (in_range 1 9 a && Ascii.eqb dash "-") eqn:E; [|discriminate].
    intros [= <- _]. split_bools. lia. }
  destruct s as [|a [|b [|dash r0]]];
    [exact (Hone EmptyString)
    |exact (Hone (String a EmptyString))
    |exact (Hone (String a (String b EmptyString)))|].
  destruct (((Ascii.eqb a "1" && in_range 0 2 b)
             || (Ascii.eqb a "0" && in_range 1 9 b))
            && Ascii.eqb dash "-") eqn:E;
    [|exact (Hone (String a (String b (String dash r0))))].
  intros H. assert (Hm : month = 10 * digit a + digit b) by congruence.
  clear H Hone. split_bools; known_digits; lia.
Qed.

Lemma parse_day_range (s : string) (day : Z) :
  parse_day s = Some day -> 1 <= day.
Proof.
  unfold parse_day.
  destruct s as [|a [|b [|c r]]]; try discriminate.
  - destruct (in_range 1 9 a) eqn:E; [|discriminate].
    intros [= <-]. split_bools. lia.
  - destruct ((Ascii.eqb a "3" && in_range 0 1 b)
              || (in_range 1 2 a && is_digit b)
              || (Ascii.eqb a "0" && in_range 1 9 b)) eqn:E.
    + intros H. assert (Hd : day = 10 * digit a + digit b) by congruence.
      clear H. split_bools; known_digits; lia.
    + destruct (Ascii.eqb a " " && in_range 1 9 b) eqn:E2; [|discriminate].
      intros [= <-]. split_bools. lia.
Qed.

Lemma is_leap_mod (year : Z) : is_leap year = true -> year mod 4 = 0.
Proof.
  unfold is_leap. intros H. apply andb_true_iff in H.
  destruct H as [H _]. now apply Z.eqb_eq in H.
Qed.

(** Every date of the years 1 to 9999 has its ordinal between those of
    0001-01-01 and 9999-12-31. *)
Lemma ymd2ord_range (year month day : Z) :
  1 <= year <= 9999 -> 1 <= month <= 12 ->
  1 <= day <= days_in_month year month ->
  MINORD <= ymd2ord year month day <= MAXORD.
Proof.
  intros Hy Hm Hd.
  unfold ymd2ord, days_before_month, days_before_year, MINORD, MAXORD.
  unfold days_in_month in Hd.
  assert (Hcases : month = 1 \/ month = 2 \/ month = 3 \/ month = 4
                   \/ month = 5 \/ month = 6 \/ month = 7 \/ month = 8
                   \/ month = 9 \/ month = 10 \/ month = 11 \/ month = 12) by lia.
  destruct (is_leap year) eqn:Hleap.
  - apply is_leap_mod in Hleap.
    repeat (destruct Hcases as [->|Hcases]); try subst month;
      cbv [nth Z.to_nat Pos.to_nat Pos.iter_op Nat.add DAYS_IN_MONTH
           DAYS_BEFORE_MONTH Z.eqb Z.ltb Z.compare Pos.compare
           Pos.compare_cont Pos.eqb andb] in Hd |- *;
      Z.div_mod_to_equations; lia.
  - repeat (destruct Hcases as [->|Hcases]); try subst month;
      cbv [nth Z.to_nat Pos.to_nat Pos.iter_op Nat.add DAYS_IN_MONTH
           DAYS_BEFORE_MONTH Z.eqb Z.ltb Z.compare Pos.compare
           Pos.compare_cont Pos.eqb andb] in Hd |- *;
      Z.div_mod_to_equations; lia.
Qed.

Lemma strptime_range (s : string) (ordinal : Z) :
  strptime s = Some ordinal -> MINORD <= ordinal <= MAXORD.
Proof.
  unfold strptime.
  destruct s as [|a [|b [|c [|d [|dash r]]]]]; try discriminate.
  destruct (is_digit a && is_digit b && is_digit c && is_digit d
            && Ascii.eqb dash "-") eqn:E; [|discriminate].
  destruct (parse_month r) as [[month r']|] eqn:Hm; [|discriminate].
  destruct (parse_day r') as [day|] eqn:Hd; [|discriminate].
  set (year := 1000 * digit a + 100 * digit b + 10 * digit c + digit d).
  destruct ((1 <=? year) && (day <=? days_in_month year month)) eqn:Hc;
    [|discriminate].
  intros [= <-].
  apply andb_true_iff in Hc. destruct Hc as [Hy Hdim].
  apply Z.leb_le in Hy, Hdim.
  apply parse_month_range in Hm. apply parse_day_range in Hd.
  apply ymd2ord_range; try lia.
  split_bools. subst year. lia.
Qed.

End CalendarFacts.

Lemma add_days_ok (d n : Z) :
  (Calendar.MINORD <= d + n <= Calendar.MAXORD)%Z -> add_days d n = Ok (d + n)%Z.
Proof.
  intros [Hlo Hhi]. unfold add_days.
  apply Z.leb_le in Hlo, Hhi. now rewrite Hlo, Hhi.
Qed.

Lemma add_days_overflow (d n : Z) :
  (Calendar.MAXORD < d + n)%Z -> add_days d n = Raise OverflowError.
Proof.
  intros H. unfold add_days.
  apply Z.leb_gt in H. rewrite H. now rewrite andb_false_r.
Qed.

Lemma chunked_total_days (reqs : list request) (start remaining : Z) :
  chunked start remaining reqs -> total_days reqs = remaining.
Proof.
  revert start remaining.
  induction reqs as [|req rest IH]; intros start remaining; cbn.
  - intros ->. reflexivity.
  - intros [_ [_ [_ Hrest]]]. apply IH in Hrest.
    unfold total_days in Hrest. rewrite Hrest. lia.
Qed.

Section DownloadProperties.

Variable download_ephemeris : request -> Z.

Hypothesis every_request_succeeds : forall req, download_ephemeris req = 1%Z.

Local Open Scope Z_scope.

(** The loop under requests that succeed: it issues the chunks of the
    remaining days and returns 1, unless the last chunk ends on the last
    day the calendar has, where advancing the start date overflows. *)
Lemma ephem_loop_chunks (fuel : nat) :
  forall start difference n_iterations append_mode success issued,
    0 <= difference <= Z.of_nat fuel ->
    Calendar.MINORD <= start ->
    start + difference - 1 <= Calendar.MAXORD ->
    exists new,
      fst (ephem_loop download_ephemeris fuel start difference n_iterations
             append_mode success issued) = (issued ++ new)%list
      /\ chunked start difference new
      /\ Z.of_nat (List.length new) = (difference + 4000) / 4001
      /\ snd (ephem_loop download_ephemeris fuel start difference n_iterations
                append_mode success issued)
         = if difference =? 0 then Ok success
           else if start + difference - 1 =? Calendar.MAXORD
                then Raise OverflowError else Ok 1.
Proof.
  induction fuel as [|fuel IH];
    intros start difference n_iterations append_mode success issued
           Hdiff Hstart Hend.
  - assert (difference = 0) by lia. subst difference.
    exists []. cbn. rewrite app_nil_r. repeat split; reflexivity.
  - cbn [ephem_loop].
    destruct (0 <? difference) eqn:Hpos.
    2:{ apply Z.ltb_ge in Hpos. assert (difference = 0) by lia.
        subst difference. exists []. cbn. rewrite app_nil_r.
        repeat split; reflexivity. }
    apply Z.ltb_lt in Hpos.
    set (days := Z.min difference 4001).
    assert (Hdays : 1 <= days <= difference) by (unfold days; lia).
    rewrite add_days_ok by lia.
    rewrite every_request_succeeds. cbn [Z.eqb].
    set (mode := if n_iterations =? 1 then true else append_mode).
    set (req := {| req_start := start; req_days := days; req_append := mode |}).
    assert (Hne : (difference =? 0) = false) by (apply Z.eqb_neq; lia).
    rewrite Hne.
    destruct (Z_le_gt_dec (start + days) Calendar.MAXORD) as [Hfit|Hover].
    + rewrite add_days_ok by lia.
      destruct (IH (start + days) (difference - days) (n_iterations + 1)
                  mode 1 (issued ++ [req])%list)
        as [new [Hissued [Hchunks [Hlen Hres]]]]; try lia.
      exists (req :: new). rewrite Hissued, Hres, <- app_assoc.
      split; [reflexivity|]. split; [cbn; auto|]. split.
      * cbn [List.length]. rewrite Nat2Z.inj_succ, Hlen.
        unfold days. Z.div_mod_to_equations. lia.
      * destruct (difference - days =? 0) eqn:Hlast.
        -- apply Z.eqb_eq in Hlast.
           assert (Hn : (start + difference - 1 =? Calendar.MAXORD) = false)
             by (apply Z.eqb_neq; lia).
           now rewrite Hn.
        -- replace (start + days + (difference - days) - 1)
             with (start + difference - 1) by lia.
           reflexivity.
    + rewrite add_days_overflow by lia.
      assert (Hlast : days = difference) by lia.
      exists [req]. split; [reflexivity|]. split.
      * cbn. repeat split; auto. lia.
      * split.
        -- cbn [List.length]. unfold days in *. Z.div_mod_to_equations. lia.
        -- assert (Hy : (start + difference - 1 =? Calendar.MAXORD) = true)
             by (apply Z.eqb_eq; lia).
           now rewrite Hy.
Qed.

(** C3: when every chunk request succeeds, the download of the
    days from [start_date] to [end_date], the last included, issues
    ceil(span/4001) requests, in date order: the first starts on
    [start_date], each asks for the smaller of the remaining days and 4001,
    each next one starts on the day after the previous chunk, and together
    they ask for exactly the span. *)
Theorem download_ephem_for_period_chunks (start_date end_date : string)
    (start_ord end_ord : Z) :
  Calendar.strptime start_date = Some start_ord ->
  Calendar.strptime end_date = Some end_ord ->
  start_ord <= end_ord ->
  let span := end_ord - start_ord + 1 in
  let issued := fst (download_ephem_for_period download_ephemeris
                       start_date end_date) in
  Z.of_nat (List.length issued) = (span + 4000) / 4001
  /\ chunked start_ord span issued
  /\ total_days issued = span
  /\ snd (download_ephem_for_period download_ephemeris start_date end_date)
     = if end_ord =? Calendar.MAXORD then Raise OverflowError else Ok 1.
Proof.
  intros Hs He Hle span issued. subst issued.
  unfold download_ephem_for_period. rewrite Hs, He. fold span.
  apply CalendarFacts.strptime_range in Hs, He.
  destruct (ephem_loop_chunks (Z.to_nat span) start_ord span 0 false 0 [])
    as [new [Hissued [Hchunks [Hlen Hres]]]]; try (unfold span; lia).
  rewrite Hissued, Hres. cbn [app].
  split; [exact Hlen|]. split; [exact Hchunks|].
  split; [exact (chunked_total_days _ _ _ Hchunks)|].
  assert (Hne : (span =? 0) = false) by (apply Z.eqb_neq; unfold span; lia).
  rewrite Hne. unfold span.
  replace (start_ord + (end_ord - start_ord + 1) - 1) with end_ord by lia.
  reflexivity.
Qed.

End DownloadProperties.

(** A request that does not succeed ends the loop: of the three chunks of
    this span only the first is asked for, and 0 is returned. *)
Lemma download_ephem_for_period_stops_on_failure :
  let download_ephemeris := fun _ : request => 0%Z in
  Calendar.strptime "2000-01-01" = Some 730120%Z
  /\ Calendar.strptime "2030-01-01" = Some 741078%Z
  /\ ((741078 - 730120 + 1 + 4000) / 4001 = 3)%Z
  /\ download_ephem_for_period download_ephemeris "2000-01-01" "2030-01-01"
     = ([ {| req_start := 730120; req_days := 4001; req_append := false |} ],
        Ok 0%Z).
Proof.
  repeat split; vm_compute; reflexivity.
Qed.

Lemma download_ephem_for_period_chunks_witness :
  let download_ephemeris := fun _ : request => 1%Z in
  let issued := fst (download_ephem_for_period download_ephemeris
                       "2000-01-01" "2030-01-01") in
  Z.of_nat (List.length issued) = 3%Z
  /\ issued = [ {| req_start := 730120; req_days := 4001; req_append := false |};
                {| req_start := 734121; req_days := 4001; req_append := true |};
                {| req_start := 738122; req_days := 2957; req_append := true |} ]
  /\ chunked 730120 10959 issued.
Proof.
  intros download_ephemeris issued.
  pose proof (download_ephem_for_period_chunks download_ephemeris
                (fun _ => eq_refl) "2000-01-01" "2030-01-01" 730120 741078
                eq_refl eq_refl ltac:(lia)) as H.
  cbv zeta in H. destruct H as [Hlen [Hchunks _]].
  split; [exact Hlen|]. split; [reflexivity|exact Hchunks].
Defined.

(** ** Resolution of the epoch parameters *)

(** A text that is not a date, typed at the prompt for a new perihelion
    date, is reported and answered by [None], not by an exception. *)
Lemma new_perihelion_malformed (float : string -> option PrimFloat.float)
    (new_date_str : string) (rest : list string) :
  Calendar.strptime new_date_str = None ->
  new_perihelion_or_period float false true (new_date_str :: rest)
  = Ok (PNone, rest).
Proof.
  intros H. unfold new_perihelion_or_period, io_bind, input. cbn.
  now rewrite H.
Qed.

(** Likewise for a text that is not a number at the prompt for the period. *)
Lemma new_period_malformed (float : string -> option PrimFloat.float)
    (new_period_str : string) (rest : list string) :
  float new_period_str = None ->
  new_perihelion_or_period float true false (new_period_str :: rest)
  = Ok (PNone, rest).
Proof.
  intros H. unfold new_perihelion_or_period, io_bind, input. cbn.
  now rewrite H.
Qed.

(** C6 on the code: the page has no perihelion date, the text typed in its
    place is not a date and the values are then accepted.  The resolution
    returns [None] for the perihelion date without raising, the main program
    enters the normalisation with it, and the run ends there in a
    [TypeError] of the date subtraction. *)
Theorem epoch_fallback_malformed_enters_normalisation :
  (exists period,
      resolve_epoch decimal_float EmptyString "1.0" ["foo"; "yes"]
      = Ok ((PNone, PFloat period), []))
  /\ snd (combine_data example_eph_file example_obs_file) = 1%nat
  /\ correct_dates 1 PNone (PFloat 365.25%float)
       (fst (combine_data example_eph_file example_obs_file))
     = Raise TypeError
  /\ main_pipeline (ops := term_ops) decimal_float 1
       example_eph_file example_obs_file EmptyString "1.0" ["foo"; "yes"]
     = Raise TypeError.
Proof.
  split; [eexists; reflexivity|].
  split; [reflexivity|]. split; reflexivity.
Qed.

(** * Further properties of the program *)

(** ** The prompt for the dates *)

Lemma read_date_ok (stdin rest : list string) (typed : string) :
  read_date stdin = Ok (typed, rest) ->
  (exists ordinal, Calendar.strptime typed = Some ordinal)
  /\ exists skipped,
       stdin = (skipped ++ typed :: rest)%list
       /\ Forall (fun text => Calendar.strptime text = None) skipped.
Proof.
  induction stdin as [|text more IH]; cbn [read_date]; [discriminate|].
  destruct (Calendar.strptime text) as [ordinal|] eqn:Hparse.
  - intros [= <- <-]. split; [eauto|]. exists []. split; [reflexivity|constructor].
  - intros Hrest. destruct (IH Hrest) as [Hvalid [skipped [-> Hskipped]]].
    split; [exact Hvalid|]. exists (text :: skipped).
    split; [reflexivity|]. now constructor.
Qed.

(** [user_input] returns the first text of the input as the name and, for
    each date, the first text typed that is a date, skipping those that are
    not: both returned dates are read by [strptime] later on. *)
Theorem user_input_dates_parse (stdin rest : list string)
    (object_name start_date end_date : string) :
  user_input stdin = Ok ((object_name, start_date, end_date), rest) ->
  (exists start_ord end_ord,
      Calendar.strptime start_date = Some start_ord
      /\ Calendar.strptime end_date = Some end_ord)
  /\ exists skipped_start skipped_end,
       stdin = (object_name :: skipped_start ++ start_date
                  :: skipped_end ++ end_date :: rest)%list
       /\ Forall (fun text => Calendar.strptime text = None) skipped_start
       /\ Forall (fun text => Calendar.strptime text = None) skipped_end.
Proof.
  unfold user_input, io_bind, input, ret.
  destruct stdin as [|name stdin1]; [discriminate|].
  destruct (read_date stdin1) as [[d1 stdin2]| |] eqn:H1; try discriminate.
  destruct (read_date stdin2) as [[d2 stdin3]| |] eqn:H2; try discriminate.
  intros [= <- <- <- <-].
  apply read_date_ok in H1, H2.
  destruct H1 as [[o1 Ho1] [sk1 [-> Hs1]]].
  destruct H2 as [[o2 Ho2] [sk2 [-> Hs2]]].
  split; [eauto|]. exists sk1, sk2. repeat split; auto.
Qed.

Lemma user_input_dates_parse_witness :
  exists start_ord end_ord,
    Calendar.strptime "2023-01-01" = Some start_ord
    /\ Calendar.strptime "2023-3-1" = Some end_ord.
Proof.
  exact (proj1 (user_input_dates_parse
                  ["C/2020 F3"; "01/01/2023"; "2023-01-01"; "2023-02-30"; "2023-3-1"]
                  [] "C/2020 F3" "2023-01-01" "2023-3-1" eq_refl)).
Defined.

(** When the input ends before a date was typed, the prompt ends in the
    [EOFError] of [input]. *)
Lemma read_date_eof (stdin : list string) :
  Forall (fun text => Calendar.strptime text = None) stdin ->
  read_date stdin = Raise EOFError.
Proof.
  induction 1 as [|text more Hparse _ IH]; cbn [read_date]; [reflexivity|].
  now rewrite Hparse.
Qed.

(** ** The download loop under any server *)

(** The loop only adds to the requests already issued. *)
Lemma ephem_loop_extends (download : request -> Z) (fuel : nat) :
  forall start difference n_iterations append_mode success issued,
  exists new,
    fst (ephem_loop download fuel start difference n_iterations append_mode
           success issued) = (issued ++ new)%list.
Proof.
  induction fuel as [|fuel IH];
    intros start difference n_iterations append_mode success issued.
  - exists []. cbn. now rewrite app_nil_r.
  - cbn [ephem_loop].
    destruct (0 <? difference)%Z;
      [|exists []; cbn; now rewrite app_nil_r].
    destruct (add_days start (Z.min difference 4001 - 1));
      [|exists []; cbn; now rewrite app_nil_r
       |exists []; cbn; now rewrite app_nil_r].
    match goal with
    | |- context [(issued ++ [?r])%list] => set (req := r)
    end.
    destruct (download req =? 0)%Z; [exists [req]; reflexivity|].
    destruct (add_days start (Z.min difference 4001)) as [start'| |];
      [|exists [req]; reflexivity|exists [req]; reflexivity].
    destruct (IH start' (difference - Z.min difference 4001)%Z
                (n_iterations + 1)%Z
                (if (n_iterations =? 1)%Z then true else append_mode)
                (download req) (issued ++ [req])%list) as [new Hnew].
    exists (req :: new). rewrite Hnew, <- app_assoc. reflexivity.
Qed.

Section DownloadAnyServer.

Variable download : request -> Z.

Local Open Scope Z_scope.

(** An end date before the start date: no request is made and the function
    returns 0, which the main program reports as a download error. *)
Theorem download_ephem_for_period_reversed (start_date end_date : string)
    (start_ord end_ord : Z) :
  Calendar.strptime start_date = Some start_ord ->
  Calendar.strptime end_date = Some end_ord ->
  end_ord < start_ord ->
  download_ephem_for_period download start_date end_date = ([], Ok 0).
Proof.
  intros Hs He Hlt. unfold download_ephem_for_period. rewrite Hs, He.
  replace (Z.to_nat (end_ord - start_ord + 1)) with 0%nat by lia.
  cbn [ephem_loop].
  assert (H : (0 <? end_ord - start_ord + 1) = false) by (apply Z.ltb_ge; lia).
  now rewrite H.
Qed.

(** The requests the loop adds, for any server: some that succeeded, then
    nothing more or one that failed, after which 0 is returned. *)
Lemma ephem_loop_trace (fuel : nat) :
  forall start difference n_iterations append_mode success issued,
  exists succeeded last,
    fst (ephem_loop download fuel start difference n_iterations append_mode
           success issued) = (issued ++ succeeded ++ last)%list
    /\ Forall (fun req => download req <> 0) succeeded
    /\ (last = []
        \/ exists req,
             last = [req] /\ download req = 0
             /\ snd (ephem_loop download fuel start difference n_iterations
                       append_mode success issued) = Ok 0).
Proof.
  induction fuel as [|fuel IH];
    intros start difference n_iterations append_mode success issued.
  - exists [], []. cbn. rewrite app_nil_r. auto.
  - cbn [ephem_loop].
    destruct (0 <? difference);
      [|exists [], []; cbn; rewrite app_nil_r; auto].
    destruct (add_days start (Z.min difference 4001 - 1));
      [|exists [], []; cbn; rewrite app_nil_r; auto
       |exists [], []; cbn; rewrite app_nil_r; auto].
    set (mode := if n_iterations =? 1 then true else append_mode).
    set (req := {| req_start := start; req_days := Z.min difference 4001;
                   req_append := mode |}).
    destruct (download req =? 0) eqn:Hreq.
    + apply Z.eqb_eq in Hreq. exists [], [req]. cbn [fst snd app].
      split; [reflexivity|]. split; [constructor|].
      right. exists req. rewrite Hreq. auto.
    + apply Z.eqb_neq in Hreq.
      destruct (add_days start (Z.min difference 4001)) as [start'| |].
      * destruct (IH start' (difference - Z.min difference 4001)
                    (n_iterations + 1) mode (download req)
                    (issued ++ [req])%list)
          as [succeeded [last [Htrace [Hok Hlast]]]].
        exists (req :: succeeded), last. rewrite Htrace, <- app_assoc.
        split; [reflexivity|]. split; [now constructor|exact Hlast].
      * exists [req], []. cbn [fst app]. split; [reflexivity|].
        split; [now repeat constructor|now left].
      * exists [req], []. cbn [fst app]. split; [reflexivity|].
        split; [now repeat constructor|now left].
Qed.

(** The requests do not depend on what the server answers, only their
    number does: the loop under any server issues a prefix of what it issues
    when every request succeeds. *)
Lemma ephem_loop_prefix (fuel : nat) :
  forall start difference n_iterations append_mode success success' issued,
  exists more,
    fst (ephem_loop (fun _ => 1) fuel start difference n_iterations
           append_mode success' issued)
    = (fst (ephem_loop download fuel start difference n_iterations
              append_mode success issued) ++ more)%list.
Proof.
  induction fuel as [|fuel IH];
    intros start difference n_iterations append_mode success success' issued.
  - exists []. cbn. now rewrite app_nil_r.
  - cbn [ephem_loop].
    destruct (0 <? difference);
      [|exists []; cbn; now rewrite app_nil_r].
    destruct (add_days start (Z.min difference 4001 - 1));
      [|exists []; cbn; now rewrite app_nil_r
       |exists []; cbn; now rewrite app_nil_r].
    set (mode := if n_iterations =? 1 then true else append_mode).
    set (req := {| req_start := start; req_days := Z.min difference 4001;
                   req_append := mode |}).
    cbn [Z.eqb].
    destruct (add_days start (Z.min difference 4001)) as [start'| |].
    + destruct (download req =? 0).
      * destruct (ephem_loop_extends (fun _ => 1) fuel start'
                    (difference - Z.min difference 4001) (n_iterations + 1)
                    mode 1 (issued ++ [req])%list) as [more Hmore].
        exists more. exact Hmore.
      * apply IH.
    + destruct (download req =? 0); exists []; cbn; now rewrite app_nil_r.
    + destruct (download req =? 0); exists []; cbn; now rewrite app_nil_r.
Qed.

End DownloadAnyServer.

(** For any server, the requests issued are the first ones of the run in
    which every request succeeds; all of them succeeded except possibly the
    last, and when the last failed the function returns 0. *)
Theorem download_ephem_for_period_stops_at_failure (download : request -> Z)
    (start_date end_date : string) :
  let run := download_ephem_for_period download start_date end_date in
  (exists more,
      fst (download_ephem_for_period (fun _ => 1%Z) start_date end_date)
      = (fst run ++ more)%list)
  /\ exists succeeded last,
       fst run = (succeeded ++ last)%list
       /\ Forall (fun req => download req <> 0%Z) succeeded
       /\ (last = []
           \/ exists req, last = [req] /\ download req = 0%Z /\ snd run = Ok 0%Z).
Proof.
  unfold download_ephem_for_period.
  destruct (Calendar.strptime start_date) as [start_ord|].
  2:{ cbn. split; [exists []; reflexivity|]. exists [], []. auto. }
  destruct (Calendar.strptime end_date) as [end_ord|].
  2:{ cbn. split; [exists []; reflexivity|]. exists [], []. auto. }
  cbv zeta. split.
  - apply ephem_loop_prefix.
  - destruct (ephem_loop_trace download (Z.to_nat (end_ord - start_ord + 1))
                start_ord (end_ord - start_ord + 1)%Z 0%Z false 0%Z [])
      as [succeeded [last H]].
    exists succeeded, last. exact H.
Qed.

(** From the second iteration on, every request is made in append mode. *)
Lemma ephem_loop_append_later (download : request -> Z) (fuel : nat) :
  forall start difference n_iterations append_mode success issued,
    (1 <= n_iterations)%Z ->
    (n_iterations = 1%Z \/ append_mode = true) ->
    exists new,
      fst (ephem_loop download fuel start difference n_iterations append_mode
             success issued) = (issued ++ new)%list
      /\ Forall (fun req => req_append req = true) new.
Proof.
  induction fuel as [|fuel IH];
    intros start difference n_iterations append_mode success issued Hn Hmode.
  - exists []. cbn. rewrite app_nil_r. auto.
  - cbn [ephem_loop].
    destruct (0 <? difference)%Z;
      [|exists []; cbn; rewrite app_nil_r; auto].
    destruct (add_days start (Z.min difference 4001 - 1));
      [|exists []; cbn; rewrite app_nil_r; auto
       |exists []; cbn; rewrite app_nil_r; auto].
    assert (Hreq_mode : (if (n_iterations =? 1)%Z then true else append_mode) = true).
    { destruct Hmode as [->| ->]; [reflexivity|].
      now destruct (n_iterations =? 1)%Z. }
    rewrite Hreq_mode.
    set (req := {| req_start := start; req_days := Z.min difference 4001;
                   req_append := true |}).
    destruct (download req =? 0)%Z;
      [exists [req]; split; [reflexivity|now repeat constructor]|].
    destruct (add_days start (Z.min difference 4001)) as [start'| |];
      [|exists [req]; split; [reflexivity|now repeat constructor]
       |exists [req]; split; [reflexivity|now repeat constructor]].
    destruct (IH start' (difference - Z.min difference 4001)%Z
                (n_iterations + 1)%Z true (download req)
                (issued ++ [req])%list) as [new [Hnew Hall]]; [lia|now right|].
    exists (req :: new). rewrite Hnew, <- app_assoc.
    split; [reflexivity|now constructor].
Qed.

(** For a range of at least one day, the first request starts on the start
    date in write mode and every later request is in append mode. *)
Lemma download_ephem_for_period_modes (download : request -> Z)
    (start_date end_date : string) (start_ord end_ord : Z) :
  Calendar.strptime start_date = Some start_ord ->
  Calendar.strptime end_date = Some end_ord ->
  (start_ord <= end_ord)%Z ->
  exists later,
    fst (download_ephem_for_period download start_date end_date)
    = {| req_start := start_ord;
         req_days := Z.min (end_ord - start_ord + 1) 4001;
         req_append := false |} :: later
    /\ Forall (fun req => req_append req = true) later.
Proof.
  intros Hs He Hle. unfold download_ephem_for_period. rewrite Hs, He.
  apply CalendarFacts.strptime_range in Hs, He.
  set (span := (end_ord - start_ord + 1)%Z).
  destruct (Z.to_nat span) as [|fuel] eqn:Hfuel; [unfold span in *; lia|].
  cbn [ephem_loop].
  assert (Hpos : (0 <? span)%Z = true) by (apply Z.ltb_lt; unfold span; lia).
  rewrite Hpos, add_days_ok by (unfold span; lia).
  cbn [Z.eqb app].
  set (req := {| req_start := start_ord; req_days := Z.min span 4001;
                 req_append := false |}).
  destruct (download req =? 0)%Z; [exists []; split; [reflexivity|constructor]|].
  destruct (add_days start_ord (Z.min span 4001)) as [start'| |];
    [|exists []; split; [reflexivity|constructor]
     |exists []; split; [reflexivity|constructor]].
  destruct (ephem_loop_append_later download fuel start' (span - Z.min span 4001)%Z
              (0 + 1)%Z false (download req) [req])
    as [new [Hnew Hall]]; [lia|now left|].
  exists new. rewrite Hnew. split; [reflexivity|exact Hall].
Qed.

Lemma ephem_file_after_append (server : request -> option (list string))
    (reqs : list request) (file : list string) :
  Forall (fun req => req_append req = true) reqs ->
  ephem_file_after server reqs file
  = (file ++ flat_map (chunk_lines server) reqs)%list.
Proof.
  unfold ephem_file_after. revert file.
  induction reqs as [|req rest IH]; intros file Hall; cbn [fold_left flat_map].
  - now rewrite app_nil_r.
  - inversion Hall as [|? ? Hreq Hrest]; subst.
    rewrite (IH _ Hrest). unfold download_ephemeris, chunk_lines.
    rewrite Hreq. destruct (server req); cbn [snd].
    + now rewrite <- app_assoc.
    + reflexivity.
Qed.

(** When the first request of a range succeeds, the file
    [downloaded_ephem_data.txt] holds, after the loop, the extracted lines of
    the requests issued, chunk after chunk in the order of the requests, and
    nothing of what it held before. *)
Theorem ephem_file_is_chunks_in_order (server : request -> option (list string))
    (start_date end_date : string) (start_ord end_ord : Z)
    (data_text old_file : list string) :
  Calendar.strptime start_date = Some start_ord ->
  Calendar.strptime end_date = Some end_ord ->
  (start_ord <= end_ord)%Z ->
  server {| req_start := start_ord;
            req_days := Z.min (end_ord - start_ord + 1) 4001;
            req_append := false |} = Some data_text ->
  let issued := fst (download_ephem_for_period (ephem_status server)
                       start_date end_date) in
  ephem_file_after server issued old_file
  = flat_map (chunk_lines server) issued.
Proof.
  intros Hs He Hle Hfirst issued. subst issued.
  destruct (download_ephem_for_period_modes (ephem_status server)
              start_date end_date start_ord end_ord Hs He Hle)
    as [later [-> Hlater]].
  change (ephem_file_after server (?r :: later) old_file)
    with (ephem_file_after server later
            (snd (download_ephemeris (server r) (req_append r) old_file))).
  rewrite (ephem_file_after_append server later _ Hlater).
  cbn [flat_map req_append]. unfold chunk_lines at 2.
  rewrite Hfirst. reflexivity.
Qed.

Lemma ephem_file_is_chunks_in_order_witness :
  let server := fun req : request =>
    Some ["2023 01 01 000000 a b c d 1.5 1.2 e 10.0 f g"] in
  ephem_file_after server
    (fst (download_ephem_for_period (ephem_status server)
            "2023-01-01" "2023-01-02"))
    ["stale line"]
  = ["2023 01 01 1.5 1.2 10.0" ++ Py.nl].
Proof.
  intros server.
  exact (ephem_file_is_chunks_in_order server "2023-01-01" "2023-01-02"
           738521 738522 ["2023 01 01 000000 a b c d 1.5 1.2 e 10.0 f g"]
           ["stale line"] eq_refl eq_refl ltac:(lia) eq_refl).
Defined.

(** When the first request fails, the file is left as it was, the only
    request is that one, and 0 is returned. *)
Theorem ephem_first_failure_keeps_file (server : request -> option (list string))
    (start_date end_date : string) (start_ord end_ord : Z)
    (old_file : list string) :
  Calendar.strptime start_date = Some start_ord ->
  Calendar.strptime end_date = Some end_ord ->
  (start_ord <= end_ord)%Z ->
  server {| req_start := start_ord;
            req_days := Z.min (end_ord - start_ord + 1) 4001;
            req_append := false |} = None ->
  let run := download_ephem_for_period (ephem_status server) start_date end_date in
  run = ([ {| req_start := start_ord;
              req_days := Z.min (end_ord - start_ord + 1) 4001;
              req_append := false |} ], Ok 0%Z)
  /\ ephem_file_after server (fst run) old_file = old_file.
Proof.
  intros Hs He Hle Hfirst run. subst run.
  unfold download_ephem_for_period. rewrite Hs, He.
  apply CalendarFacts.strptime_range in Hs, He.
  set (span := (end_ord - start_ord + 1)%Z).
  destruct (Z.to_nat span) as [|fuel] eqn:Hfuel; [unfold span in *; lia|].
  cbn [ephem_loop].
  assert (Hpos : (0 <? span)%Z = true) by (apply Z.ltb_lt; unfold span; lia).
  rewrite Hpos, add_days_ok by (unfold span; lia).
  cbn [Z.eqb app].
  assert (Hstatus : ephem_status server
                      {| req_start := start_ord; req_days := Z.min span 4001;
                         req_append := false |} = 0%Z).
  { unfold ephem_status. cbn [req_append]. unfold span.
    now rewrite Hfirst. }
  rewrite Hstatus. cbn [Z.eqb]. split; [reflexivity|].
  unfold ephem_file_after. cbn [fst fold_left req_append]. unfold span.
  now rewrite Hfirst.
Qed.

Lemma ephem_first_failure_keeps_file_witness :
  let server := fun req : request => @None (list string) in
  ephem_file_after server
    (fst (download_ephem_for_period (ephem_status server)
            "2023-01-01" "2040-01-02"))
    ["stale line"]
  = ["stale line"].
Proof.
  intros server.
  exact (proj2 (ephem_first_failure_keeps_file server "2023-01-01" "2040-01-02"
                  738521 744731 ["stale line"] eq_refl eq_refl ltac:(lia) eq_refl)).
Defined.

Lemma download_ephem_for_period_reversed_witness :
  download_ephem_for_period (fun _ => 1%Z) "2023-03-01" "2023-01-01"
  = ([], Ok 0%Z).
Proof.
  exact (download_ephem_for_period_reversed (fun _ => 1%Z)
           "2023-03-01" "2023-01-01" 738580 738521 eq_refl eq_refl ltac:(lia)).
Defined.

(** ** The lines of the ephemeris file *)

Lemma extract_step_data_line (extracted_data : list string) (line : string) :
  extract_step extracted_data line
  = if is_data_line line
    then (extracted_data ++ [Py.join " " (ephem_fields line)])%list
    else extracted_data.
Proof.
  unfold extract_step, is_data_line, ephem_fields.
  destruct (Py.split line)
    as [|p0 [|p1 [|p2 [|p3 [|p4 [|p5 [|p6 [|p7 [|p8 [|p9 [|p10 [|p11 rest]]]]]]]]]]]];
    reflexivity.
Qed.

Lemma extract_fold (data_text extracted_data : list string) :
  fold_left extract_step data_text extracted_data
  = (extracted_data
     ++ map (fun line => Py.join " " (ephem_fields line))
          (filter is_data_line data_text))%list.
Proof.
  revert extracted_data.
  induction data_text as [|line rest IH]; intros acc; cbn [fold_left filter].
  - now rewrite app_nil_r.
  - rewrite IH, extract_step_data_line.
    destruct (is_data_line line); cbn [map]; [|reflexivity].
    now rewrite <- app_assoc.
Qed.

Lemma ephem_fields_tokens (line : string) :
  is_data_line line = true ->
  Forall (fun t => is_token t = true) (ephem_fields line).
Proof.
  unfold is_data_line, ephem_fields. intros Hlong.
  apply Nat.ltb_lt in Hlong.
  pose proof (split_tokens line) as Htok. rewrite Forall_forall in Htok.
  repeat constructor; apply Htok, nth_In; lia.
Qed.

(** The file lines written by [download_ephemeris] come, in order, from the
    lines of the data block that have more than 13 fields, the others being
    skipped; each of them reads back as exactly six fields, those at
    positions 0, 1, 2, 8, 9 and 11 of its data line. *)
Theorem extract_ephemeris_six_fields (data_text : list string) :
  map with_newline (extract_ephemeris data_text)
  = map (fun line => with_newline (Py.join " " (ephem_fields line)))
      (filter is_data_line data_text)
  /\ forall line,
       In line data_text -> is_data_line line = true ->
       fields (with_newline (Py.join " " (ephem_fields line)))
       = [ nth 0 (Py.split line) EmptyString; nth 1 (Py.split line) EmptyString;
           nth 2 (Py.split line) EmptyString; nth 8 (Py.split line) EmptyString;
           nth 9 (Py.split line) EmptyString; nth 11 (Py.split line) EmptyString ].
Proof.
  split.
  - unfold extract_ephemeris. rewrite extract_fold. cbn [app].
    now rewrite map_map.
  - intros line _ Hlong. unfold fields, with_newline.
    rewrite split_strip, split_join_line; [reflexivity|].
    now apply ephem_fields_tokens.
Qed.

(** ** Rounding *)





(** ** Rows within half a period of the perihelion *)

(** When the day difference of a row is neither below minus half the period
    nor above half the period, no loop body runs: the offset is the day
    difference itself, still an [int], and the line carries it as it is. *)
Theorem correct_line_within_half_period (line : string)
    (perihelion_date current_date : Z) (period : PrimFloat.float) (fuel : nat) :
  row_date (Py.split line) = Some current_date ->
  int_ltb_float (current_date - perihelion_date) (- period / 2)%float = false ->
  float_ltb_int (period / 2)%float (current_date - perihelion_date) = false ->
  (1 <= fuel)%nat ->
  adjust_delta_days fuel (current_date - perihelion_date) period
  = Ok (PyInt (current_date - perihelion_date))
  /\ correct_line fuel (PDatetime perihelion_date) (PFloat period) line
     = Ok (Some (modified_line (current_date - perihelion_date) (Py.split line))).
Proof.
  intros Hdate Hlow Hhigh Hfuel.
  assert (Hrun : adjust_delta_days fuel (current_date - perihelion_date) period
                 = Ok (PyInt (current_date - perihelion_date))).
  { destruct fuel as [|fuel]; [lia|].
    unfold adjust_delta_days. rewrite while_below_turn.
    cbn [num_ltb]. rewrite Hlow. cbn [bind].
    rewrite while_above_turn. cbn [num_gtb]. now rewrite Hhigh. }
  split; [exact Hrun|].
  rewrite (correct_line_of_offset _ _ _ _ _ Hdate), Hrun. reflexivity.
Qed.

Lemma correct_line_within_half_period_witness :
  adjust_delta_days 1 (738621 - 738521) 365.25%float = Ok (PyInt (738621 - 738521))
  /\ correct_line 1 (PDatetime 738521) (PFloat 365.25%float)
       ("2023 4 11 18.5 V 1.5 1.2 10.0" ++ Py.nl)
     = Ok (Some (modified_line (738621 - 738521)
                   (Py.split ("2023 4 11 18.5 V 1.5 1.2 10.0" ++ Py.nl)))).
Proof.
  apply (correct_line_within_half_period
           ("2023 4 11 18.5 V 1.5 1.2 10.0" ++ Py.nl) 738521 738621
           365.25%float 1).
  - reflexivity.
  - vm_compute. reflexivity.
  - vm_compute. reflexivity.
  - lia.
Defined.

(** ** The columns through the stages *)

Lemma uint_string_space_free (d : Decimal.uint) :
  space_free (NilEmpty.string_of_uint d) = true.
Proof.
  induction d; cbn [NilEmpty.string_of_uint space_free];
    try rewrite IHd; reflexivity.
Qed.

(** The decimal text of an integer is one field. *)
Lemma str_int_token (n : Z) : is_token (Py.str_int n) = true.
Proof.
  unfold Py.str_int, NilZero.string_of_int, NilZero.string_of_uint, is_token.
  destruct (Z.to_int n) as [d|d]; destruct d;
    cbn [String.eqb negb andb space_free NilEmpty.string_of_uint];
    try reflexivity; apply uint_string_space_free.
Qed.

Lemma concat_app (sep : string) (l1 l2 : list string) :
  l1 <> [] -> l2 <> [] ->
  String.concat sep (l1 ++ l2)
  = String.concat sep l1 ++ sep ++ String.concat sep l2.
Proof.
  intros H1 H2. induction l1 as [|x xs IH]; [congruence|].
  destruct xs as [|y ys].
  - cbn [app]. rewrite concat_cons. destruct l2; [congruence|reflexivity].
  - change ((x :: y :: ys) ++ l2)%list with (x :: (y :: ys) ++ l2)%list.
    rewrite concat_cons. cbn [app].
    change (y :: ys ++ l2)%list with ((y :: ys) ++ l2)%list.
    rewrite IH by discriminate.
    rewrite (concat_cons sep x (y :: ys)).
    now rewrite !append_assoc.
Qed.

(** The line written by [correct_dates] for a row of more than three fields
    reads back as the offset, the fields after the date, and the date. *)
Lemma modified_line_fields (n : Z) (parts : list string) :
  Forall (fun t => is_token t = true) parts ->
  (3 < List.length parts)%nat ->
  Py.split (modified_line n parts)
  = (Py.str_int n :: skipn 3 parts ++ firstn 3 parts)%list.
Proof.
  intros Htok Hlen.
  assert (Hrest : skipn 3 parts <> []).
  { intros H. apply (f_equal (@List.length string)) in H.
    rewrite length_skipn in H. cbn in H. lia. }
  assert (Hdate : firstn 3 parts <> []).
  { destruct parts; cbn; [cbn in Hlen; lia|discriminate]. }
  assert (Hline : modified_line n parts
                  = Py.join " " (Py.str_int n :: skipn 3 parts ++ firstn 3 parts)
                    ++ Py.nl).
  { unfold modified_line, Py.join.
    rewrite concat_cons.
    destruct (skipn 3 parts ++ firstn 3 parts)%list eqn:Happ.
    - apply app_eq_nil in Happ. tauto.
    - rewrite <- Happ, concat_app by assumption.
      now rewrite !append_assoc. }
  rewrite Hline. apply split_join_line.
  constructor; [apply str_int_token|].
  rewrite <- (firstn_skipn 3 parts) in Htok. apply Forall_app in Htok.
  apply Forall_app. tauto.
Qed.

Section Columns.

Context {F : Type} {ops : FloatOps F}.

(** The stages agree on the columns.  For an observation line
    [year month day mag band] and an ephemeris line
    [year month day delta r phase] of the same date, a perihelion date and a
    period for which the two loops end on the day difference with an offset
    that [round] accepts: the join writes the eight fields in this order,
    the date correction writes the offset, the five data fields and the date,
    and the reduction reads the magnitude and the two distances from the
    columns that hold them and writes
    [year month day offset delta r phase mag] with the reduced magnitude. *)
Theorem pipeline_columns (obs_line eph_line : string)
    (year month day mag band delta r phase : string)
    (perihelion_date current_date : Z) (period : PrimFloat.float) (fuel : nat)
    (wrapped : pynum) (rounded : Z) :
  fields obs_line = [year; month; day; mag; band] ->
  fields eph_line = [year; month; day; delta; r; phase] ->
  Calendar.strptime (year ++ "-" ++ month ++ "-" ++ day) = Some current_date ->
  adjust_delta_days fuel (current_date - perihelion_date) period = Ok wrapped ->
  round wrapped = Ok rounded ->
  exists (joined modified : string) (offset : Z),
    offset = rounded
    /\ combine_data [eph_line] [obs_line] = ([joined], 1%nat)
    /\ Py.split joined = [year; month; day; mag; band; delta; r; phase]
    /\ correct_dates fuel (PDatetime perihelion_date) (PFloat period) [joined]
       = Ok [modified]
    /\ Py.split modified
       = [Py.str_int offset; mag; band; delta; r; phase; year; month; day]
    /\ forall (m_observed delta_value r_value lg : F) (correction : Q),
         fl_parse mag = Some m_observed ->
         fl_parse delta = Some delta_value ->
         fl_parse r = Some r_value ->
         Py.member band discarded_filters = false ->
         fl_log10 (fl_mul delta_value r_value) = Some lg ->
         getitem v_band_correction band = Ok [correction] ->
         reduce_magnitudes [modified]
         = Ok {| outfile :=
                   [ {| rr_fields := [year; month; day; Py.str_int offset;
                                      delta; r; phase; mag];
                        rr_m_abs :=
                          fl_round2
                            (fl_add (fl_sub m_observed
                                       (fl_mul (fl_literal 5) lg))
                                    (fl_literal correction)) |} ];
                 n_obs_left := 1;
                 n_discarded_obs := 0 |}.
Proof.
  intros Hobs Heph Hdate Hrun Hround.
  pose proof (fields_tokens obs_line) as Hobs_tok. rewrite Hobs in Hobs_tok.
  pose proof (fields_tokens eph_line) as Heph_tok. rewrite Heph in Heph_tok.
  set (parts := [year; month; day; mag; band; delta; r; phase]).
  assert (Htok : Forall (fun t => is_token t = true) parts).
  { repeat match goal with
           | H : Forall _ (_ :: _) |- _ => inversion H; subst; clear H
           end.
    repeat constructor; assumption. }
  set (joined := Py.join " " parts ++ Py.nl).
  assert (Hsplit : Py.split joined = parts) by (apply split_join_line, Htok).
  assert (Hrow : row_date parts = Some current_date) by exact Hdate.
  exists joined, (modified_line rounded parts), rounded.
  split; [reflexivity|]. split.
  { rewrite combine_data_rows. cbn [flat_map app].
    unfold rows_of_obs. rewrite Hobs. cbn [List.length Nat.leb].
    unfold matching. cbn [filter]. unfold line_date. rewrite Hobs, Heph.
    cbn [date_key Py.slice skipn firstn Nat.sub].
    rewrite String.eqb_refl. cbn [map]. unfold joined_line.
    rewrite Hobs, Heph. reflexivity. }
  split; [exact Hsplit|]. split.
  { unfold correct_dates. cbn [correct_dates_loop]. unfold correct_line.
    rewrite Hsplit, Hrow. cbn [List.length Nat.ltb Nat.leb parts].
    cbn [days_between as_float bind]. rewrite Hrun. cbn [bind].
    rewrite Hround. reflexivity. }
  assert (Hfields : Py.split (modified_line rounded parts)
                    = [Py.str_int rounded; mag; band; delta; r; phase;
                       year; month; day]).
  { rewrite modified_line_fields; [reflexivity|exact Htok|cbn; lia]. }
  split; [exact Hfields|].
  intros m_observed delta_value r_value lg correction Hm Hd Hr Hb Hlg Hc.
  unfold reduce_magnitudes. cbn [reduce_loop].
  rewrite (reduce_line_kept _ _ _ _ _ _ _ _ _ _ _ _ _ _ _ _ _
             Hfields Hm Hd Hr Hb Hlg Hc).
  reflexivity.
Qed.

End Columns.

Lemma pipeline_columns_witness :
  exists (joined modified : string) (offset : Z),
    combine_data ["2023 1 2 1.5 1.2 10.0" ++ Py.nl] ["2023 1 2 18.5 V" ++ Py.nl]
    = ([joined], 1%nat)
    /\ Py.split modified
       = [Py.str_int offset; "18.5"; "V"; "1.5"; "1.2"; "10.0"; "2023"; "1"; "2"].
Proof.
  destruct (pipeline_columns (ops := term_ops)
              ("2023 1 2 18.5 V" ++ Py.nl)
              ("2023 1 2 1.5 1.2 10.0" ++ Py.nl)
              "2023" "1" "2" "18.5" "V" "1.5" "1.2" "10.0"
              738521 738522 365.25%float 2 (PyInt 1) 1
              eq_refl eq_refl eq_refl
              ltac:(vm_compute; reflexivity) ltac:(reflexivity))
    as [joined [modified [offset [_ [Hjoin [_ [_ [Hfields _]]]]]]]].
  exists joined, modified, offset. split; assumption.
Defined.

(** ** A period that the offset absorbs *)

(** The two loops on a day difference whose double the period leaves
    unchanged, on the side where the test holds. *)
Lemma adjust_delta_days_absorbed (delta_days : Z) (period x : PrimFloat.float) :
  float_of_int delta_days = Ok x ->
  (int_ltb_float delta_days (- period / 2)%float = true
   /\ PrimFloat.ltb x (- period / 2)%float = true
   /\ PrimFloat.add x period = x)
  \/ (int_ltb_float delta_days (- period / 2)%float = false
      /\ float_ltb_int (period / 2)%float delta_days = true
      /\ PrimFloat.ltb (period / 2)%float x = true
      /\ PrimFloat.sub x period = x) ->
  forall fuel, adjust_delta_days fuel delta_days period = OutOfFuel.
Proof.
  intros Hx Hside fuel. unfold adjust_delta_days.
  destruct fuel as [|fuel]; [reflexivity|].
  rewrite while_below_turn. cbn [num_ltb num_add].
  destruct Hside as [[Htest [Hlow Hsame]]|[Hexit [Htest [Hhigh Hsame]]]].
  - rewrite Htest, Hx. cbn [bind]. rewrite Hsame.
    now rewrite while_below_absorbed.
  - rewrite Hexit. cbn [bind].
    rewrite while_above_turn. cbn [num_gtb num_sub].
    rewrite Htest, Hx. cbn [bind]. rewrite Hsame.
    now rewrite while_above_absorbed.
Qed.

(** When the period is so small next to the day difference of a row that
    adding it to the double of the difference, or subtracting it, gives that
    double again (a zero period, or 1e-20 next to one day), and the
    difference is on the side of the interval where the loop runs, the row
    is never finished, whatever the fuel. *)
Theorem correct_line_never_ends (line : string)
    (perihelion_date current_date : Z) (period x : PrimFloat.float) :
  row_date (Py.split line) = Some current_date ->
  float_of_int (current_date - perihelion_date) = Ok x ->
  (int_ltb_float (current_date - perihelion_date) (- period / 2)%float = true
   /\ PrimFloat.ltb x (- period / 2)%float = true
   /\ PrimFloat.add x period = x)
  \/ (int_ltb_float (current_date - perihelion_date) (- period / 2)%float = false
      /\ float_ltb_int (period / 2)%float (current_date - perihelion_date) = true
      /\ PrimFloat.ltb (period / 2)%float x = true
      /\ PrimFloat.sub x period = x) ->
  forall fuel,
    correct_line fuel (PDatetime perihelion_date) (PFloat period) line = OutOfFuel
    /\ correct_dates fuel (PDatetime perihelion_date) (PFloat period) [line]
       = OutOfFuel.
Proof.
  intros Hdate Hx Hside fuel.
  assert (Hline : correct_line fuel (PDatetime perihelion_date) (PFloat period) line
                  = OutOfFuel).
  { rewrite (correct_line_of_offset _ _ _ _ _ Hdate).
    now rewrite (adjust_delta_days_absorbed _ _ _ Hx Hside). }
  split; [exact Hline|].
  unfold correct_dates. cbn [correct_dates_loop]. now rewrite Hline.
Qed.

Lemma correct_line_never_ends_witness :
  correct_line 1000 (PDatetime 738521) (PFloat 0%float)
    ("2023 1 2 18.5 V 1.5 1.2 10.0" ++ Py.nl)
  = OutOfFuel.
Proof.
  refine (proj1 (correct_line_never_ends
                   ("2023 1 2 18.5 V 1.5 1.2 10.0" ++ Py.nl) 738521 738522
                   0%float 1%float eq_refl _ _ 1000)).
  - vm_compute. reflexivity.
  - right. repeat split; vm_compute; reflexivity.
Defined.

(** ** What the date correction keeps *)

Lemma correct_line_shape (fuel : nat) (perihelion_date period : pyval)
    (line : string) (r : option string) :
  correct_line fuel perihelion_date period line = Ok r ->
  match r with
  | Some modified =>
      has_date_fields line = true
      /\ exists n, modified = modified_line n (Py.split line)
  | None => has_date_fields line = false
  end.
Proof.
  unfold correct_line, has_date_fields.
  destruct (List.length (Py.split line) <? 3)%nat.
  - intros [= <-]. reflexivity.
  - destruct (row_date (Py.split line)); [|discriminate].
    destruct (days_between z perihelion_date); try discriminate.
    cbn [bind]. destruct (as_float period); try discriminate.
    cbn [bind]. destruct (adjust_delta_days fuel a a0); try discriminate.
    cbn [bind]. destruct (round a1); try discriminate.
    cbn [bind]. intros [= <-]. split; [reflexivity|eauto].
Qed.

Lemma correct_dates_loop_shape (fuel : nat) (perihelion_date period : pyval)
    (infile outfile modified : list string) :
  correct_dates_loop fuel perihelion_date period infile outfile = Ok modified ->
  exists new,
    modified = (outfile ++ new)%list
    /\ Forall2 (fun line out => exists n, out = modified_line n (Py.split line))
         (filter has_date_fields infile) new.
Proof.
  revert outfile.
  induction infile as [|line rest IH]; intros outfile; cbn [correct_dates_loop].
  - intros [= <-]. exists []. rewrite app_nil_r. split; [reflexivity|constructor].
  - destruct (correct_line fuel perihelion_date period line) as [r| |] eqn:Hline;
      try discriminate.
    cbn [bind]. intros Hrest.
    apply correct_line_shape in Hline.
    destruct (IH _ Hrest) as [new [-> Hnew]].
    cbn [filter]. destruct r as [out|].
    + destruct Hline as [-> Hout]. exists (out :: new).
      rewrite <- app_assoc. split; [reflexivity|now constructor].
    + rewrite Hline. exists new. split; [reflexivity|exact Hnew].
Qed.

Lemma correct_dates_shape (fuel : nat) (perihelion_date period : pyval)
    (combined modified : list string) :
  correct_dates fuel perihelion_date period combined = Ok modified ->
  List.length modified = List.length (filter has_date_fields combined)
  /\ Forall2 (fun line out => exists n, out = modified_line n (Py.split line))
       (filter has_date_fields combined) modified.
Proof.
  unfold correct_dates. intros Hrun.
  apply correct_dates_loop_shape in Hrun.
  destruct Hrun as [new [-> Hnew]]. cbn [app].
  split; [symmetry; exact (Forall2_length Hnew)|exact Hnew].
Qed.

(** When the date correction returns, it has written one line per input
    line of three fields or more, in order, each being the input line with
    its date replaced by an integer offset in front and moved to the end;
    lines of fewer fields are passed over. *)
Theorem correct_dates_line_by_line (fuel : nat) (perihelion_date period : pyval)
    (combined modified : list string) :
  correct_dates fuel perihelion_date period combined = Ok modified ->
  List.length modified = List.length (filter has_date_fields combined)
  /\ Forall2 (fun line out => exists n, out = modified_line n (Py.split line))
       (filter has_date_fields combined) modified.
Proof. apply correct_dates_shape. Qed.

Lemma correct_dates_line_by_line_witness :
  List.length ["-35 18.5 V 1.5 1.2 10.0 2021 11 27" ++ Py.nl]
  = List.length (filter has_date_fields
                   [Py.nl; "2021 11 27 18.5 V 1.5 1.2 10.0" ++ Py.nl]).
Proof.
  exact (proj1 (correct_dates_line_by_line 2 (PDatetime 738521)
                  (PFloat 365.25%float)
                  [Py.nl; "2021 11 27 18.5 V 1.5 1.2 10.0" ++ Py.nl]
                  ["-35 18.5 V 1.5 1.2 10.0 2021 11 27" ++ Py.nl] eq_refl)).
Defined.

(** Every line the join writes has five fields or more. *)
Lemma combine_data_lines_have_fields (eph_file obs_file : list string) (row : string) :
  In row (fst (combine_data eph_file obs_file)) ->
  (5 <= List.length (Py.split row))%nat.
Proof.
  rewrite combine_data_rows. cbn [fst]. intros Hrow.
  apply in_flat_map in Hrow. destruct Hrow as [o [_ Hrow]].
  apply rows_of_obs_In in Hrow. destruct Hrow as [e [_ [_ [H5 ->]]]].
  rewrite <- split_strip. fold (fields (joined_line o e)).
  rewrite joined_line_fields, length_app. lia.
Qed.

Lemma filter_all {A : Type} (p : A -> bool) (l : list A) :
  (forall a, In a l -> p a = true) -> filter p l = l.
Proof.
  induction l as [|a l IH]; intros H; cbn [filter]; [reflexivity|].
  rewrite (H a (or_introl eq_refl)), IH; [reflexivity|].
  intros b Hb. apply H. now right.
Qed.

Lemma combine_data_count (eph_file obs_file : list string) :
  snd (combine_data eph_file obs_file)
  = List.length (fst (combine_data eph_file obs_file)).
Proof. now rewrite combine_data_rows. Qed.

Lemma reduce_magnitudes_counts {F : Type} {ops : FloatOps F}
    (modified : list string) (st : reduce_state F) :
  reduce_magnitudes modified = Ok st ->
  (n_obs_left st + n_discarded_obs st = List.length modified)%nat.
Proof.
  unfold reduce_magnitudes. intros Hrun.
  apply reduce_loop_ok in Hrun.
  destruct Hrun as [rows [_ [Hrows [Hleft Hdisc]]]].
  cbn in Hleft, Hdisc.
  rewrite Hleft, Hdisc, <- (Forall2_length Hrows).
  apply filter_partition_length.
Qed.

Section Counts.

Context {F : Type} {ops : FloatOps F}.

Variable float : string -> option PrimFloat.float.

(** No joined row is lost on the way: when the main program ends normally
    with a non-empty join, the rows kept and the rows discarded by the
    reduction are together as many as the rows joined. *)
Theorem main_pipeline_counts (fuel : nat) (eph_file obs_file : list string)
    (perihelion_date_str period_str : string) (stdin combined : list string)
    (st : reduce_state F) :
  main_pipeline float fuel eph_file obs_file perihelion_date_str period_str stdin
  = Ok (combined, Some st) ->
  combined = fst (combine_data eph_file obs_file)
  /\ (n_obs_left st + n_discarded_obs st = List.length combined)%nat
  /\ List.length combined = snd (combine_data eph_file obs_file).
Proof.
  unfold main_pipeline.
  destruct (resolve_epoch float perihelion_date_str period_str stdin)
    as [[[perihelion_date period] rest]| |]; try discriminate.
  pose proof (combine_data_lines_have_fields eph_file obs_file) as Hfields.
  pose proof (combine_data_count eph_file obs_file) as Hcount.
  destruct (combine_data eph_file obs_file) as [rows n_obs].
  cbn [fst snd] in *.
  destruct (negb (n_obs =? 0)%nat); [|discriminate].
  destruct (correct_dates fuel perihelion_date period rows) as [modified| |] eqn:Hc;
    try discriminate.
  cbn [bind].
  destruct (reduce_magnitudes modified) as [st'| |] eqn:Hr; try discriminate.
  cbn [bind]. intros [= <- <-].
  split; [reflexivity|]. split; [|now symmetry].
  apply correct_dates_shape in Hc. destruct Hc as [Hlen _].
  rewrite filter_all in Hlen.
  - apply reduce_magnitudes_counts in Hr. lia.
  - intros row Hrow. unfold has_date_fields.
    apply Hfields in Hrow.
    destruct (List.length (Py.split row) <? 3)%nat eqn:Hlt; [|reflexivity].
    apply Nat.ltb_lt in Hlt. lia.
Qed.

(** When the join is empty, neither the date correction nor the reduction
    runs, whatever the epoch parameters are, [None] included. *)
Theorem main_pipeline_empty_join (fuel : nat) (eph_file obs_file : list string)
    (perihelion_date_str period_str : string) (stdin rest : list string)
    (perihelion_date period : pyval) :
  resolve_epoch float perihelion_date_str period_str stdin
  = Ok ((perihelion_date, period), rest) ->
  snd (combine_data eph_file obs_file) = 0%nat ->
  main_pipeline float fuel eph_file obs_file perihelion_date_str period_str stdin
  = Ok ([], None).
Proof.
  intros Hres Hn. unfold main_pipeline. rewrite Hres.
  pose proof (combine_data_count eph_file obs_file) as Hcount.
  destruct (combine_data eph_file obs_file) as [rows n_obs].
  cbn [fst snd] in *. subst n_obs. cbn [Nat.eqb negb].
  destruct rows; [reflexivity|discriminate].
Qed.

End Counts.

Lemma main_pipeline_counts_witness :
  exists (combined : list string) (st : reduce_state float_term),
    (n_obs_left st + n_discarded_obs st = List.length combined)%nat.
Proof.
  eexists. eexists.
  refine (proj1 (proj2 (main_pipeline_counts (ops := term_ops) decimal_float 1
                          example_eph_file example_obs_file
                          "2023-01-01.0" "1.0" ["yes"] _ _ _))).
  vm_compute. reflexivity.
Defined.

Lemma main_pipeline_empty_join_witness :
  main_pipeline (ops := term_ops) decimal_float 1
    ["2023 1 2 1.5 1.2 10.0" ++ Py.nl] example_obs_file
    EmptyString EmptyString ["foo"; "bar"; "yes"]
  = Ok ([], None).
Proof.
  exact (main_pipeline_empty_join (ops := term_ops) decimal_float 1
           ["2023 1 2 1.5 1.2 10.0" ++ Py.nl] example_obs_file
           EmptyString EmptyString ["foo"; "bar"; "yes"] [] PNone PNone
           eq_refl eq_refl).
Defined.

(** ** Every joinable observation is joined *)

Lemma matching_length_positive (eph_file : list string) (obs_line : string) :
  existsb (fun eph_line => String.eqb (line_date eph_line) (line_date obs_line))
    eph_file = true ->
  (1 <= List.length (matching eph_file obs_line))%nat.
Proof.
  intros H. apply existsb_exists in H. destruct H as [e [He Hd]].
  apply String.eqb_eq in Hd.
  assert (Hin : In e (matching eph_file obs_line)) by (now apply matching_In).
  destruct (matching eph_file obs_line); [contradiction|cbn; lia].
Qed.

Lemma matching_empty (eph_file : list string) (obs_line : string) :
  existsb (fun eph_line => String.eqb (line_date eph_line) (line_date obs_line))
    eph_file = false ->
  matching eph_file obs_line = [].
Proof.
  intros H. destruct (matching eph_file obs_line) as [|e rest] eqn:Hm;
    [reflexivity|].
  assert (Hin : In e (matching eph_file obs_line)) by (rewrite Hm; now left).
  apply matching_In in Hin. destruct Hin as [Hin Hd].
  assert (Hex : existsb (fun eph_line =>
                           String.eqb (line_date eph_line) (line_date obs_line))
                  eph_file = true).
  { apply existsb_exists. exists e. split; [exact Hin|now apply String.eqb_eq]. }
  congruence.
Qed.

(** When no two ephemeris lines have the same date text, the join writes
    exactly one line for each observation line that has five fields or more
    and a date present in the ephemeris, several observations of one night
    included, and none for the others. *)
Theorem combine_data_joins_each_once (eph_file obs_file : list string) :
  NoDup (map line_date eph_file) ->
  snd (combine_data eph_file obs_file)
  = List.length (filter (joinable eph_file) obs_file)
  /\ forall obs_line,
       List.length (rows_of_obs eph_file obs_line)
       = if joinable eph_file obs_line then 1%nat else 0%nat.
Proof.
  intros Hnd.
  assert (Hone : forall obs_line,
             List.length (rows_of_obs eph_file obs_line)
             = if joinable eph_file obs_line then 1%nat else 0%nat).
  { intros o. unfold rows_of_obs, joinable.
    destruct (5 <=? List.length (fields o))%nat; cbn [andb]; [|reflexivity].
    rewrite length_map.
    destruct (existsb _ eph_file) eqn:Hex.
    - pose proof (matching_length_positive eph_file o Hex).
      pose proof (matching_at_most_one eph_file o Hnd). lia.
    - now rewrite matching_empty. }
  split; [|exact Hone].
  rewrite combine_data_rows. cbn [snd].
  induction obs_file as [|o rest IH]; [reflexivity|].
  cbn [flat_map filter]. rewrite length_app, IH, Hone.
  destruct (joinable eph_file o); reflexivity.
Qed.

Lemma combine_data_joins_each_once_witness :
  snd (combine_data
         ["2023 1 1 1.5 1.2 10.0" ++ Py.nl; "2023 1 2 1.6 1.3 11.0" ++ Py.nl]
         ["2023 1 1 18.5 V" ++ Py.nl; "2023 1 1 18.4 R" ++ Py.nl;
          "2023 1 2 18.7" ++ Py.nl; "2023 1 3 18.9 V" ++ Py.nl])
  = 2%nat.
Proof.
  refine (proj1 (combine_data_joins_each_once
                   ["2023 1 1 1.5 1.2 10.0" ++ Py.nl; "2023 1 2 1.6 1.3 11.0" ++ Py.nl]
                   ["2023 1 1 18.5 V" ++ Py.nl; "2023 1 1 18.4 R" ++ Py.nl;
                    "2023 1 2 18.7" ++ Py.nl; "2023 1 3 18.9 V" ++ Py.nl] _)).
  vm_compute. repeat constructor; simpl; intuition discriminate.
Defined.

(** ** The confirmation of the epoch parameters *)

Section EpochProperties.

Variable float : string -> option PrimFloat.float.

(** Both values found on the page: the answer [yes], in any case of the
    letters, keeps them, the period being the years found times 365.25; any
    other answer drops both and takes the next two texts typed, the period
    now being read in days, and a text that cannot be read gives [None]. *)
Theorem resolve_epoch_confirmation
    (perihelion_date_str period_str date_str decimals : string)
    (ordinal : Z) (years : PrimFloat.float)
    (answer typed_date typed_period : string) (rest : list string) :
  found perihelion_date_str = true ->
  found period_str = true ->
  Py.split_on "." perihelion_date_str = [date_str; decimals] ->
  Calendar.strptime date_str = Some ordinal ->
  float period_str = Some years ->
  resolve_epoch float perihelion_date_str period_str
    (answer :: typed_date :: typed_period :: rest)
  = if String.eqb (Py.lower answer) "yes"
    then Ok ((PDatetime ordinal, PFloat (PrimFloat.mul years 365.25%float)),
             typed_date :: typed_period :: rest)
    else Ok ((match Calendar.strptime typed_date with
              | Some o => PDatetime o
              | None => PNone
              end,
              match float typed_period with
              | Some days => PFloat days
              | None => PNone
              end), rest).
Proof.
  intros Hp Hper Hsplit Hdate Hyears.
  unfold resolve_epoch, found_perihelion_date, found_period, io_bind, ret.
  rewrite Hp, Hper, Hsplit, Hdate, Hyears. cbn [negb andb input].
  destruct (String.eqb (Py.lower answer) "yes"); cbn [negb]; [reflexivity|].
  unfold new_perihelion_or_period, io_bind, input, ret. cbn [negb].
  destruct (Calendar.strptime typed_date); destruct (float typed_period);
    reflexivity.
Qed.

Lemma split_on_without_separator (sep : ascii) (s : string) :
  ~ In sep (chars s) -> Py.split_on sep s = [s].
Proof.
  induction s as [|c r IH]; cbn [chars Py.split_on]; intros Hnot;
    [reflexivity|].
  destruct (Ascii.eqb c sep) eqn:Hc.
  - apply Ascii.eqb_eq in Hc. exfalso. apply Hnot. now left.
  - rewrite IH; [reflexivity|]. intros Hin. apply Hnot. now right.
Qed.

(** A perihelion date found on the page without a decimal point, a plain
    date included, cannot be unpacked: once the period is there (found, or
    typed in when missing), the resolution ends in a [ValueError] that
    nothing catches. *)
Theorem resolve_epoch_plain_date_raises (perihelion_date_str period_str : string)
    (stdin : list string) :
  found perihelion_date_str = true ->
  ~ In "."%char (chars perihelion_date_str) ->
  (found period_str = true \/ stdin <> []) ->
  resolve_epoch float perihelion_date_str period_str stdin = Raise ValueError.
Proof.
  intros Hp Hdot Hper.
  unfold resolve_epoch, found_perihelion_date, io_bind, io_raise.
  rewrite Hp, (split_on_without_separator _ _ Hdot). cbn [negb andb].
  destruct (found period_str) eqn:Hfound; cbn [negb]; [reflexivity|].
  destruct Hper as [Hper|Hin]; [discriminate|].
  - destruct stdin as [|typed rest]; [congruence|].
    unfold new_perihelion_or_period, io_bind, input, ret. cbn [negb].
    destruct (float typed); reflexivity.
Qed.

End EpochProperties.

Lemma resolve_epoch_confirmation_witness :
  resolve_epoch decimal_float "2023-01-01.5" "2.0" ["no"; "2022-05-05"; "700"; "x"]
  = Ok ((PDatetime 738280, PFloat 700%float), ["x"]).
Proof.
  exact (resolve_epoch_confirmation decimal_float "2023-01-01.5" "2.0"
           "2023-01-01" "5" 738521 2%float "no" "2022-05-05" "700" ["x"]
           eq_refl eq_refl eq_refl eq_refl eq_refl).
Defined.

Lemma resolve_epoch_plain_date_raises_witness :
  resolve_epoch decimal_float "2023-01-01" "2.0" ["yes"] = Raise ValueError.
Proof.
  refine (resolve_epoch_plain_date_raises decimal_float "2023-01-01" "2.0" ["yes"]
            eq_refl _ (or_introl eq_refl)).
  vm_compute. intuition discriminate.
Defined.

(** ** [read_obs_data]: one entry per date *)

Lemma getitem_setitem_same {V : Type} (d : list (string * V)) (key : string) (v : V) :
  getitem (setitem d key v) key = Ok v.
Proof.
  induction d as [|[k x] d IH]; cbn [setitem getitem].
  - now rewrite String.eqb_refl.
  - destruct (String.eqb k key) eqn:Hk; cbn [getitem]; rewrite Hk;
      [reflexivity|exact IH].
Qed.

Lemma getitem_setitem_other {V : Type} (d : list (string * V))
    (key other : string) (v : V) :
  key <> other ->
  getitem (setitem d key v) other = getitem d other.
Proof.
  intros Hne. induction d as [|[k x] d IH]; cbn [setitem getitem].
  - apply String.eqb_neq in Hne. now rewrite Hne.
  - destruct (String.eqb k key) eqn:Hk; cbn [getitem].
    + apply String.eqb_eq in Hk. subst k.
      apply String.eqb_neq in Hne. now rewrite Hne.
    + destruct (String.eqb k other); [reflexivity|exact IH].
Qed.

Lemma read_obs_step_other (data : list (string * (string * string)))
    (line date : string) :
  kept_for date line = false ->
  getitem (read_obs_step data line) date = getitem data date.
Proof.
  unfold kept_for, read_obs_step. fold (fields line).
  change (Py.join " " (Py.slice 0 3 (fields line))) with (line_date line).
  destruct (5 <=? List.length (fields line))%nat; cbn [andb]; [|reflexivity].
  intros Hne. apply String.eqb_neq in Hne.
  destruct (nth_error (fields line) 3); [|reflexivity].
  destruct (nth_error (fields line) 4); [|reflexivity].
  now apply getitem_setitem_other.
Qed.

Lemma read_obs_fold_other (file : list string)
    (data : list (string * (string * string))) (date : string) :
  Forall (fun line => kept_for date line = false) file ->
  getitem (fold_left read_obs_step file data) date = getitem data date.
Proof.
  revert data. induction file as [|line rest IH]; intros data Hall;
    cbn [fold_left]; [reflexivity|].
  inversion Hall as [|? ? Hline Hrest]; subst.
  rewrite (IH _ Hrest). now apply read_obs_step_other.
Qed.

(** [read_obs_data] keeps one entry per date text: the magnitude and the
    band of the last line of five fields or more that has the date, whatever
    lines of that date came before; a date that no such line has is a
    missing key. *)
Theorem read_obs_data_last_wins (before after : list string)
    (line mag band : string) :
  (5 <= List.length (fields line))%nat ->
  nth_error (fields line) 3 = Some mag ->
  nth_error (fields line) 4 = Some band ->
  Forall (fun later => kept_for (line_date line) later = false) after ->
  getitem (read_obs_data (before ++ line :: after)) (line_date line)
  = Ok (mag, band).
Proof.
  intros H5 Hmag Hband Hafter. unfold read_obs_data.
  rewrite fold_left_app. cbn [fold_left].
  rewrite (read_obs_fold_other _ _ _ Hafter).
  unfold read_obs_step. fold (fields line).
  change (Py.join " " (Py.slice 0 3 (fields line))) with (line_date line).
  apply Nat.leb_le in H5. rewrite H5, Hmag, Hband.
  apply getitem_setitem_same.
Qed.

Lemma read_obs_data_last_wins_witness :
  getitem (read_obs_data ["2023 1 1 18.5 V" ++ Py.nl; "2023 1 1 18.4 R" ++ Py.nl;
                          "2023 1 2 18.7 V" ++ Py.nl])
    "2023 1 1"
  = Ok ("18.4", "R").
Proof.
  exact (read_obs_data_last_wins ["2023 1 1 18.5 V" ++ Py.nl]
           ["2023 1 2 18.7 V" ++ Py.nl] ("2023 1 1 18.4 R" ++ Py.nl) "18.4" "R"
           ltac:(vm_compute; lia) eq_refl eq_refl
           ltac:(repeat constructor)).
Defined.

(** A date that no line of five fields or more has is not a key of the
    dictionary: looking it up is a [KeyError]. *)
Theorem read_obs_data_missing_date (file : list string) (date : string) :
  Forall (fun line => kept_for date line = false) file ->
  getitem (read_obs_data file) date = Raise KeyError.
Proof.
  intros Hall. unfold read_obs_data.
  now rewrite (read_obs_fold_other _ _ _ Hall).
Qed.

Lemma read_obs_data_missing_date_witness :
  getitem (read_obs_data ["2023 1 1 18.5 V" ++ Py.nl; "2023 1 2 18.7" ++ Py.nl])
    "2023 1 2"
  = Raise KeyError.
Proof.
  exact (read_obs_data_missing_date
           ["2023 1 1 18.5 V" ++ Py.nl; "2023 1 2 18.7" ++ Py.nl] "2023 1 2"
           ltac:(repeat constructor)).
Defined.

(** ** The names of the result files *)

Lemma chars_app (a b : string) : chars (a ++ b) = (chars a ++ chars b)%list.
Proof.
  induction a as [|c a IH]; cbn; [reflexivity|now rewrite IH].
Qed.

Lemma replace_char_removes (old new : ascii) (s : string) :
  old <> new -> ~ In old (chars (replace_char old new s)).
Proof.
  intros Hne. induction s as [|c r IH]; cbn [replace_char chars]; [tauto|].
  intros [Hc|Hin]; [|tauto].
  destruct (Ascii.eqb c old) eqn:Heq; [congruence|].
  apply Ascii.eqb_neq in Heq. congruence.
Qed.

Lemma replace_char_keeps_absent (old new c : ascii) (s : string) :
  c <> new -> ~ In c (chars s) -> ~ In c (chars (replace_char old new s)).
Proof.
  intros Hne. induction s as [|d r IH]; cbn [replace_char chars]; [tauto|].
  intros Hnot [Hc|Hin].
  - destruct (Ascii.eqb d old); [congruence|]. apply Hnot. now left.
  - apply IH; [|exact Hin]. intros H. apply Hnot. now right.
Qed.

Lemma replace_char_length (old new : ascii) (s : string) :
  String.length (replace_char old new s) = String.length s.
Proof.
  induction s as [|c r IH]; cbn; [reflexivity|now rewrite IH].
Qed.

Lemma new_object_name_chars (object_name : string) :
  String.length (new_object_name object_name) = String.length object_name
  /\ ~ In " "%char (chars (new_object_name object_name))
  /\ ~ In "/"%char (chars (new_object_name object_name))
  /\ ~ In backslash (chars (new_object_name object_name)).
Proof.
  unfold new_object_name. split; [now rewrite !replace_char_length|].
  split; [apply replace_char_removes; discriminate|].
  split.
  - apply replace_char_keeps_absent; [discriminate|].
    apply replace_char_removes. discriminate.
  - apply replace_char_keeps_absent; [discriminate|].
    apply replace_char_keeps_absent; [discriminate|].
    apply replace_char_removes. discriminate.
Qed.

(** The object name used in the file names has the length of the name typed
    and holds no blank, no slash and no backslash. *)
Theorem new_object_name_safe (object_name : string) :
  String.length (new_object_name object_name) = String.length object_name
  /\ ~ In " "%char (chars (new_object_name object_name))
  /\ ~ In "/"%char (chars (new_object_name object_name))
  /\ ~ In backslash (chars (new_object_name object_name)).
Proof. apply new_object_name_chars. Qed.

Lemma is_digit_date_char (c : ascii) :
  Calendar.is_digit c = true -> date_char c = true.
Proof. unfold date_char. now intros ->. Qed.

Lemma in_range_date_char (lo hi : Z) (c : ascii) :
  Calendar.in_range lo hi c = true -> date_char c = true.
Proof.
  unfold Calendar.in_range. intros H.
  apply andb_true_iff in H. destruct H as [H _].
  apply andb_true_iff in H. destruct H as [H _].
  now apply is_digit_date_char.
Qed.

Ltac date_chars :=
  repeat match goal with
         | H : _ && _ = true |- _ => apply andb_true_iff in H; destruct H
         | H : _ || _ = true |- _ => apply orb_true_iff in H; destruct H
         | H : Ascii.eqb _ _ = true |- _ => apply Ascii.eqb_eq in H; subst
         | H : Calendar.in_range _ _ _ = true |- _ => apply in_range_date_char in H
         | H : Calendar.is_digit _ = true |- _ => apply is_digit_date_char in H
         end;
  cbn [chars forallb];
  repeat match goal with
         | H : date_char _ = true |- _ => rewrite H
         end;
  try reflexivity.

Lemma parse_day_chars (s : string) (day : Z) :
  Calendar.parse_day s = Some day -> forallb date_char (chars s) = true.
Proof.
  unfold Calendar.parse_day.
  destruct s as [|a [|b [|c r]]]; try discriminate.
  - destruct (Calendar.in_range 1 9 a) eqn:E; [|discriminate].
    intros _. date_chars.
  - destruct ((Ascii.eqb a "3" && Calendar.in_range 0 1 b)
              || (Calendar.in_range 1 2 a && Calendar.is_digit b)
              || (Ascii.eqb a "0" && Calendar.in_range 1 9 b)) eqn:E.
    + intros _. date_chars.
    + destruct (Ascii.eqb a " " && Calendar.in_range 1 9 b) eqn:E2;
        [|discriminate].
      intros _. clear E. date_chars.
Qed.

Lemma parse_month_chars (s r : string) (month : Z) :
  Calendar.parse_month s = Some (month, r) ->
  forallb date_char (chars r) = true ->
  forallb date_char (chars s) = true.
Proof.
  unfold Calendar.parse_month. intros Hparse Hrest.
  assert (Hone : forall t,
             match t with
             | String a (String dash r0) =>
                 if Calendar.in_range 1 9 a && Ascii.eqb dash "-"
                 then Some (Calendar.digit a, r0) else None
             | _ => None
             end = Some (month, r) -> forallb date_char (chars t) = true).
  { intros [|a [|dash r0]]; try discriminate.
    destruct (Calendar.in_range 1 9 a && Ascii.eqb dash "-") eqn:E;
      [|discriminate].
    intros [= _ ->]. date_chars. exact Hrest. }
  destruct s as [|a [|b [|dash r0]]];
    [exact (Hone EmptyString Hparse)
    |exact (Hone (String a EmptyString) Hparse)
    |exact (Hone (String a (String b EmptyString)) Hparse)|].
  destruct (((Ascii.eqb a "1" && Calendar.in_range 0 2 b)
             || (Ascii.eqb a "0" && Calendar.in_range 1 9 b))
            && Ascii.eqb dash "-") eqn:E;
    [|exact (Hone (String a (String b (String dash r0))) Hparse)].
  assert (Hr : r0 = r) by congruence. subst r0. clear Hparse Hone.
  date_chars; exact Hrest.
Qed.

(** A text that [strptime] reads as a date holds digits, dashes and blanks
    only. *)
Lemma strptime_chars (s : string) (ordinal : Z) :
  Calendar.strptime s = Some ordinal -> forallb date_char (chars s) = true.
Proof.
  unfold Calendar.strptime.
  destruct s as [|a [|b [|c [|d [|dash r]]]]]; try discriminate.
  destruct (Calendar.is_digit a && Calendar.is_digit b && Calendar.is_digit c
            && Calendar.is_digit d && Ascii.eqb dash "-") eqn:E; [|discriminate].
  destruct (Calendar.parse_month r) as [[month r']|] eqn:Hm; [|discriminate].
  destruct (Calendar.parse_day r') as [day|] eqn:Hd; [|discriminate].
  intros _.
  apply parse_day_chars in Hd.
  apply (parse_month_chars _ _ _ Hm) in Hd.
  date_chars. exact Hd.
Qed.

Lemma forallb_excludes {A : Type} (p : A -> bool) (l : list A) (a : A) :
  forallb p l = true -> p a = false -> ~ In a l.
Proof.
  intros Hall Ha Hin. rewrite forallb_forall in Hall.
  apply Hall in Hin. congruence.
Qed.

(** The names given to the two result files hold no slash and no backslash,
    whatever the object name typed (a comet designation has a slash), for
    dates that [strptime] reads: they name files of the target folders and
    nothing deeper. *)
Theorem result_file_names_safe (object_name start_date end_date : string)
    (start_ord end_ord : Z) :
  Calendar.strptime start_date = Some start_ord ->
  Calendar.strptime end_date = Some end_ord ->
  forall name,
    name = new_combined object_name start_date end_date
    \/ name = new_reduced object_name start_date end_date ->
    ~ In "/"%char (chars name) /\ ~ In backslash (chars name).
Proof.
  intros Hs He name Hname.
  apply strptime_chars in Hs, He.
  destruct (new_object_name_chars object_name) as [_ [_ [Hslash Hback]]].
  pose proof (forallb_excludes _ _ "/"%char Hs eq_refl) as Hs1.
  pose proof (forallb_excludes _ _ backslash Hs eq_refl) as Hs2.
  pose proof (forallb_excludes _ _ "/"%char He eq_refl) as He1.
  pose proof (forallb_excludes _ _ backslash He eq_refl) as He2.
  destruct Hname as [-> | ->]; unfold new_combined, new_reduced;
    rewrite !chars_app, !in_app_iff; cbn [chars In];
    split; intros H;
    repeat match goal with
           | H : _ \/ _ |- _ => destruct H
           end;
    try contradiction; try discriminate.
Qed.

Lemma result_file_names_safe_witness :
  ~ In "/"%char (chars (new_combined "C/2020 F3" "2023-01-01" "2023-03-01")).
Proof.
  exact (proj1 (result_file_names_safe "C/2020 F3" "2023-01-01" "2023-03-01"
                  738521 738580 eq_refl eq_refl _ (or_introl eq_refl))).
Defined.

Example new_combined_ex :
  new_combined "C/2020 F3" "2023-01-01" "2023-03-01"
  = "C_2020_F3_total_observations_2023-01-01_2023-03-01.txt".
Proof. reflexivity. Qed.

(** ** The observation lines *)

Lemma split_app_space (s : string) (c : ascii) :
  Py.isspace c = true -> Py.split (s ++ String c EmptyString) = Py.split s.
Proof.
  intros Hc. induction s as [|a r IH].
  - cbn. now rewrite Hc.
  - cbn [append].
    destruct r as [|d r0].
    + cbn [append Py.split]. rewrite Hc. destruct (Py.isspace a); reflexivity.
    + change (Py.split (String a (String d r0 ++ String c EmptyString)))
        with (if Py.isspace a
              then Py.split (String d r0 ++ String c EmptyString)
              else if Py.isspace d
                   then String a EmptyString
                        :: Py.split (String d r0 ++ String c EmptyString)
                   else match Py.split (String d r0 ++ String c EmptyString) with
                        | t :: ts => String a t :: ts
                        | [] => [String a EmptyString]
                        end).
      rewrite IH. reflexivity.
Qed.

Lemma split_blank (r : string) : Py.split (String " " r) = Py.split r.
Proof. reflexivity. Qed.

Lemma split_on_head (sep : ascii) (s : string) :
  exists head more,
    Py.split_on sep s = head :: more
    /\ ~ In sep (chars head)
    /\ (space_free s = true -> space_free head = true).
Proof.
  induction s as [|c r IH]; cbn [Py.split_on].
  - exists EmptyString, []. cbn. tauto.
  - destruct (Ascii.eqb c sep) eqn:Hc.
    + exists EmptyString, (Py.split_on sep r). cbn. tauto.
    + destruct IH as [head [more [-> [Hnot Hfree]]]].
      exists (String c head), more. split; [reflexivity|].
      apply Ascii.eqb_neq in Hc. cbn [chars space_free In]. split.
      * intros [H|H]; [congruence|tauto].
      * intros H. apply andb_true_iff in H. destruct H as [H1 H2].
        rewrite H1. now apply Hfree.
Qed.

(** What the line of a table row is made of. *)
Lemma observation_line_inv (columns : list string) (line : string) :
  observation_line columns = Ok line ->
  exists cell magn year month day_text day more_date more_day,
    nth_error columns 0 = Some cell
    /\ nth_error columns 3 = Some magn
    /\ Py.split cell = year :: month :: day_text :: more_date
    /\ Py.split_on "." day_text = day :: more_day
    /\ ~ In "."%char (chars day)
    /\ fields line
       = (year :: month :: (if String.eqb day EmptyString then [] else [day])
          ++ Py.split magn)%list.
Proof.
  unfold observation_line.
  destruct (Py.index columns 0) as [cell| |] eqn:Hcell; try discriminate.
  cbn [bind].
  pose proof (split_tokens cell) as Htok.
  destruct (Py.split cell) as [|year [|month [|day_text more_date]]] eqn:Hsplit;
    try discriminate.
  cbn [Py.index nth_error bind].
  destruct (split_on_head "." day_text) as [day [more_day [Hday [Hnodot Hfree]]]].
  rewrite Hday. cbn [nth_error bind].
  destruct (Py.index columns 3) as [magn| |] eqn:Hmagn; try discriminate.
  cbn [bind]. intros [= <-].
  apply index_inv in Hcell, Hmagn.
  exists cell, magn, year, month, day_text, day, more_date, more_day.
  repeat (split; [assumption || reflexivity|]).
  inversion Htok as [|? ? Hy Htok1]; subst.
  inversion Htok1 as [|? ? Hm Htok2]; subst.
  inversion Htok2 as [|? ? Hd _]; subst.
  unfold fields. rewrite split_strip.
  rewrite split_token_app; [|exact Hy|right; do 2 eexists; split; reflexivity].
  rewrite split_blank.
  rewrite split_token_app; [|exact Hm|right; do 2 eexists; split; reflexivity].
  rewrite split_blank.
  assert (Hmagn_nl : Py.split (magn ++ Py.nl) = Py.split magn)
    by (apply split_app_space; reflexivity).
  destruct (String.eqb day EmptyString) eqn:Hempty.
  - apply String.eqb_eq in Hempty. subst day. cbn [append app].
    rewrite split_blank. now rewrite Hmagn_nl.
  - rewrite split_token_app;
      [|unfold is_token; rewrite Hempty; cbn [negb andb];
        apply Hfree; now apply token_space_free
       |right; do 2 eexists; split; reflexivity].
    rewrite split_blank. now rewrite Hmagn_nl.
Qed.

(** The line written for a table row holds the year and the month of the
    date cell, the day cut at its decimal point, and the fields of the
    magnitude cell: the day written has no point left. *)
Theorem observation_line_fields (columns : list string) (line : string) :
  observation_line columns = Ok line ->
  exists cell magn year month day_text day more_date more_day,
    nth_error columns 0 = Some cell
    /\ nth_error columns 3 = Some magn
    /\ Py.split cell = year :: month :: day_text :: more_date
    /\ Py.split_on "." day_text = day :: more_day
    /\ ~ In "."%char (chars day)
    /\ fields line
       = (year :: month :: (if String.eqb day EmptyString then [] else [day])
          ++ Py.split magn)%list.
Proof. apply observation_line_inv. Qed.

Lemma observation_line_fields_witness :
  exists line,
    observation_line ["2023 01 05.12345"; "x"; "y"; "18.5 V"] = Ok line
    /\ fields line = ["2023"; "01"; "05"; "18.5"; "V"].
Proof.
  eexists. split; [reflexivity|].
  destruct (observation_line_fields
              ["2023 01 05.12345"; "x"; "y"; "18.5 V"] _ eq_refl)
    as [cell [magn [year [month [day_text [day [more_date [more_day H]]]]]]]].
  reflexivity.
Defined.

(** A table row whose magnitude cell has fewer than two fields, a magnitude
    without band or nothing at all, gives a line that the join never uses,
    whatever the ephemeris. *)
Theorem observation_without_band_not_joined (columns : list string)
    (line magn : string) (eph_file : list string) :
  observation_line columns = Ok line ->
  nth_error columns 3 = Some magn ->
  (List.length (Py.split magn) < 2)%nat ->
  combine_data eph_file [line] = ([], 0%nat).
Proof.
  intros Hline Hmagn Hshort.
  apply observation_line_inv in Hline.
  destruct Hline
    as [cell [magn' [year [month [day_text [day [more_date [more_day
         [_ [Hmagn' [_ [_ [_ Hfields]]]]]]]]]]]]].
  assert (magn' = magn) by congruence. subst magn'.
  rewrite combine_data_rows. cbn [flat_map app].
  unfold rows_of_obs. rewrite Hfields.
  assert (Hlen : (5 <=? List.length
                    (year :: month
                     :: (if String.eqb day EmptyString then [] else [day])
                     ++ Py.split magn))%nat = false).
  { apply Nat.leb_gt. cbn [List.length]. rewrite length_app.
    destruct (String.eqb day EmptyString); cbn [List.length]; lia. }
  now rewrite Hlen.
Qed.

Lemma observation_without_band_not_joined_witness :
  combine_data ["2023 01 05 1.5 1.2 10.0" ++ Py.nl]
    ["2023 01 05 18.5" ++ Py.nl]
  = ([], 0%nat).
Proof.
  exact (observation_without_band_not_joined
           ["2023 01 05.12345"; "x"; "y"; "18.5"] _ "18.5"
           ["2023 01 05 1.5 1.2 10.0" ++ Py.nl] eq_refl eq_refl
           ltac:(vm_compute; lia)).
Defined.






Lemma extract_ephemeris_six_fields_witness :
  fields (with_newline
            (Py.join " "
               (ephem_fields "2023 01 01 000000 a b c d 1.5 1.2 e 10.0 f g")))
  = ["2023"; "01"; "01"; "1.5"; "1.2"; "10.0"].
Proof.
  exact (proj2 (extract_ephemeris_six_fields
                  ["Date header"; "2023 01 01 000000 a b c d 1.5 1.2 e 10.0 f g"])
           "2023 01 01 000000 a b c d 1.5 1.2 e 10.0 f g"
           (or_intror (or_introl eq_refl)) eq_refl).
Defined.
